(** * mongo_kerberos_native: the GSSAPI handshake driver

    A shallow embedding of [ext/mongo_kerberos/mongo_kerberos_native.c]:
    the Ruby C extension that drives a SASL/GSSAPI client handshake through
    libsasl2 ([sasl_client_new], [sasl_client_start], [sasl_client_step])
    and moves the tokens across the wire in base64 ([sasl_encode64],
    [sasl_decode64]).

    - C [int] and [unsigned] values are [Z]; conversions to [unsigned] are
      written out as reductions modulo 2^32.
    - Byte buffers are [list byte]; names and messages are [string].
    - [rb_raise] leaves the function by a non-local exit: every function
      that can raise lives in a state-and-exception monad in which the
      instance variables written before the raise stay written.
    - The debugging output the C code sends to stdout ([puts], [printf])
      is not part of the model. *)

From Stdlib Require Import ZArith List Strings.String Strings.Ascii Strings.Byte Bool Lia.
Import ListNotations.
Local Open Scope string_scope.
Local Open Scope list_scope.
Local Open Scope Z_scope.

Definition bytes := list byte.

(** ** libsasl2 constants ([sasl/sasl.h]) *)

Module Sasl.
Definition SASL_CONTINUE : Z := 1.
Definition SASL_OK : Z := 0.
Definition SASL_FAIL : Z := -1.
Definition SASL_BUFOVER : Z := -3.
Definition SASL_BADPROT : Z := -5.
Definition SASL_CB_LIST_END : Z := 0.
Definition SASL_CB_USER : Z := 0x4001.
Definition SASL_CB_AUTHNAME : Z := 0x4002.
End Sasl.
Import Sasl.

(** ** C-level helpers *)

(** Conversion of an integer value to [unsigned int]. *)
Definition to_unsigned (z : Z) : Z := z mod 2 ^ 32.

(** Conversion of a [long] to [int]. *)
Definition to_int (z : Z) : Z := (z + 2 ^ 31) mod 2 ^ 32 - 2 ^ 31.

(** A C condition: any non-zero [int] is true. *)
Definition c_true (z : Z) : bool := negb (z =? 0).

(** [int is_sasl_failure(int result)] *)
Definition is_sasl_failure (result : Z) : Z :=
  if result <? 0 then 1 else 0.

(** [strcmp]: zero when the two strings are equal, otherwise the difference
    of the first pair of characters that differ (the terminator counts as
    character 0). *)
Fixpoint strcmp (s1 s2 : string) : Z :=
  match s1, s2 with
  | EmptyString, EmptyString => 0
  | EmptyString, String c2 _ => 0 - Z.of_nat (nat_of_ascii c2)
  | String c1 _, EmptyString => Z.of_nat (nat_of_ascii c1)
  | String c1 r1, String c2 r2 =>
      if Ascii.eqb c1 c2 then strcmp r1 r2
      else Z.of_nat (nat_of_ascii c1) - Z.of_nat (nat_of_ascii c2)
  end.

(** A C string: a [char] sequence that ends at its first NUL, so none of
    its characters is NUL. *)
Fixpoint c_string (s : string) : bool :=
  match s with
  | EmptyString => true
  | String c r => negb (Ascii.eqb c Ascii.zero) && c_string r
  end.

(** The bytes a reader sees when it is handed a buffer and a length: the
    first [len] bytes of what was stored there.  [None] when the length
    runs past the stored bytes (the read would reach memory nobody
    initialised). *)
Definition buffer_take (buf : bytes) (len : Z) : option bytes :=
  if (0 <=? len) && (len <=? Z.of_nat (List.length buf))
  then Some (firstn (Z.to_nat len) buf)
  else None.

(** ** The base64 codec of libsasl2 *)

(** [sasl_encode64] and [sasl_decode64] are libsasl2's, and libsasl2 is
    not among the sources; only the calls are.  The spec has the codec as
    bounded base64 without newlines (sections 4.4 and 6) whose capacity
    counts the terminator, as the comment above the call in
    [initialize_challenge] says of cyrus-sasl.  The definitions of this
    module follow cyrus-sasl's [lib/saslutil.c].  The handshake functions
    take the codec as a parameter; this one is used wherever a claim is
    about concrete base64 text or about what fits the buffers. *)

Module Cyrus.

Definition uchar (b : byte) : Z := Z.of_N (Byte.to_N b).

(** Store of an [int] into a [char]: the low eight bits. *)
Definition to_char (z : Z) : byte :=
  match Byte.of_N (Z.to_N (z mod 256)) with
  | Some b => b
  | None => x00
  end.

(** [static char basis_64[]]: the 64 digits, padded with ['?'] up to 256
    entries. *)
Definition basis_64 : bytes :=
  list_byte_of_string
    "ABCDEFGHIJKLMNOPQRSTUVWXYZabcdefghijklmnopqrstuvwxyz0123456789+/"
  ++ repeat "?"%byte 192.

Definition basis (i : Z) : byte := nth (Z.to_nat i) basis_64 x00.

(** [static signed char index_64[128]] *)
Definition index_64 : list Z :=
  [ -1;-1;-1;-1; -1;-1;-1;-1; -1;-1;-1;-1; -1;-1;-1;-1;
    -1;-1;-1;-1; -1;-1;-1;-1; -1;-1;-1;-1; -1;-1;-1;-1;
    -1;-1;-1;-1; -1;-1;-1;-1; -1;-1;-1;62; -1;-1;-1;63;
    52;53;54;55; 56;57;58;59; 60;61;-1;-1; -1;-1;-1;-1;
    -1; 0; 1; 2;  3; 4; 5; 6;  7; 8; 9;10; 11;12;13;14;
    15;16;17;18; 19;20;21;22; 23;24;25;-1; -1;-1;-1;-1;
    -1;26;27;28; 29;30;31;32; 33;34;35;36; 37;38;39;40;
    41;42;43;44; 45;46;47;48; 49;50;51;-1; -1;-1;-1;-1 ].

(** [#define CHAR64(c) (((c) < 0 || (c) > 127) ? -1 : index_64[(c)])];
    a [char] above 127 is negative. *)
Definition CHAR64 (c : byte) : Z :=
  if 127 <? uchar c then -1 else nth (Z.to_nat (uchar c)) index_64 (-1).

Definition pad : byte := "="%byte.
Definition is_pad (c : byte) : bool := Byte.eqb c pad.

(** The four digits written for a full group of three input bytes. *)
Definition enc0 (a : byte) : byte := basis (Z.shiftr (uchar a) 2).
Definition enc1 (a b : byte) : byte :=
  basis (Z.lor (Z.land (Z.shiftl (uchar a) 4) 0x30) (Z.shiftr (uchar b) 4)).
Definition enc2 (b c : byte) : byte :=
  basis (Z.lor (Z.land (Z.shiftl (uchar b) 2) 0x3c) (Z.shiftr (uchar c) 6)).
Definition enc3 (c : byte) : byte := basis (Z.land (uchar c) 0x3f).
(** The digits of the trailing group of one or two bytes. *)
Definition enc1_last (a : byte) : byte :=
  basis (Z.land (Z.shiftl (uchar a) 4) 0x30).
Definition enc2_last (b : byte) : byte :=
  basis (Z.land (Z.shiftl (uchar b) 2) 0x3c).

(** Modelled from the spec: the base64 text of a byte sequence, four
    digits for every three bytes and ['='] padding at the end, no newlines.
    In libsasl2 this is the body of [sasl_encode64] after the capacity
    check: the [while (inlen >= 3)] loop and the [if (inlen > 0)] tail. *)
Fixpoint encode64_loop (inp : bytes) : bytes :=
  match inp with
  | a :: b :: c :: rest =>
      enc0 a :: enc1 a b :: enc2 b c :: enc3 c :: encode64_loop rest
  | [a; b] => [enc0 a; enc1 a b; enc2_last b; pad]
  | [a] => [enc0 a; enc1_last a; pad; pad]
  | [] => []
  end.

(** Modelled from the spec: libsasl2's
    [int sasl_encode64(in, inlen, out, outmax, outlen)], with [in] not
    null.  It yields the result code, the bytes stored in [out] and the
    value stored in [*outlen].  The capacity [outmax] counts the
    terminator: the digits must stay below it.  The needed length is stored
    in [*outlen] before the capacity is checked. *)
Definition sasl_encode64 (inp : bytes) (outmax : Z) : Z * bytes * option Z :=
  let inlen := to_unsigned (Z.of_nat (List.length inp)) in
  let olen := to_unsigned (to_unsigned (inlen + 2) / 3 * 4) in
  if outmax <=? olen then (SASL_BUFOVER, [], Some olen)
  else (SASL_OK, encode64_loop inp ++ [x00], Some olen).

(** The bytes decoded from one group of four digits. *)
Definition dec0 (c0 c1 : byte) : byte :=
  to_char (Z.lor (Z.shiftl (CHAR64 c0) 2) (Z.shiftr (CHAR64 c1) 4)).
Definition dec1 (c1 c2 : byte) : byte :=
  to_char (Z.lor (Z.land (Z.shiftl (CHAR64 c1) 4) 0xf0)
                 (Z.shiftr (CHAR64 c2) 2)).
Definition dec2 (c2 c3 : byte) : byte :=
  to_char (Z.lor (Z.land (Z.shiftl (CHAR64 c2) 6) 0xc0) (CHAR64 c3)).

(** Modelled from the spec: base64 decoding into a bounded buffer.  In
    libsasl2 this is the [while (inlen > 3)] loop of [sasl_decode64] and
    the code after it.  [out] is what has been stored so far, [len] the
    running count, which must stay below the capacity [outmax].  Every
    early [return] leaves [*outlen] unwritten. *)
Fixpoint decode64_loop (inp out : bytes) (len outmax : Z) (saw_equal : bool)
  : Z * bytes * option Z :=
  match inp with
  | c0 :: c1 :: c2 :: c3 :: rest =>
      if saw_equal then (SASL_BADPROT, out, None)
      else if (CHAR64 c0 =? -1) || (CHAR64 c1 =? -1)
      then (SASL_BADPROT, out, None)
      else if negb (is_pad c2) && (CHAR64 c2 =? -1)
      then (SASL_BADPROT, out, None)
      else if negb (is_pad c3) && (CHAR64 c3 =? -1)
      then (SASL_BADPROT, out, None)
      else if is_pad c2 && negb (is_pad c3)
      then (SASL_BADPROT, out, None)
      else
        let saw_equal := is_pad c2 || is_pad c3 in
        let out := out ++ [dec0 c0 c1] in
        let len := len + 1 in
        if outmax <=? len then (SASL_BUFOVER, out, None)
        else if negb (is_pad c2) then
          let out := out ++ [dec1 c1 c2] in
          let len := len + 1 in
          if outmax <=? len then (SASL_BUFOVER, out, None)
          else if negb (is_pad c3) then
            let out := out ++ [dec2 c2 c3] in
            let len := len + 1 in
            if outmax <=? len then (SASL_BUFOVER, out, None)
            else decode64_loop rest out len outmax saw_equal
          else decode64_loop rest out len outmax saw_equal
        else decode64_loop rest out len outmax saw_equal
  | _ =>
      let out := out ++ [x00] in
      match inp with
      | [] => (SASL_OK, out, Some len)
      | _ => if saw_equal then (SASL_BADPROT, out, Some len)
             else (SASL_CONTINUE, out, Some len)
      end
  end.

(** Modelled from the spec: libsasl2's
    [int sasl_decode64(in, inlen, out, outmax, outlen)]. *)
Definition sasl_decode64 (inp : bytes) (outmax : Z) : Z * bytes * option Z :=
  match inp with
  | x0d :: _ => (SASL_FAIL, [], None)   (* '\r' *)
  | _ => decode64_loop inp [] 0 outmax false
  end.

(** The two halves of [dec1] and of [dec2]. *)
Definition dec1_hi (c1 : byte) : Z := Z.land (Z.shiftl (CHAR64 c1) 4) 0xf0.
Definition dec1_lo (c2 : byte) : Z := Z.shiftr (CHAR64 c2) 2.
Definition dec2_hi (c2 : byte) : Z := Z.land (Z.shiftl (CHAR64 c2) 6) 0xc0.

Definition valid_digit (c : byte) : bool :=
  negb (is_pad c) && negb (CHAR64 c =? -1) && negb (Byte.eqb c x0d).

(** What one input byte settles. *)
Definition check1 (a : byte) : bool :=
  valid_digit (enc0 a) && valid_digit (enc1_last a)
  && valid_digit (enc2_last a) && valid_digit (enc3 a)
  && Byte.eqb (dec0 (enc0 a) (enc1_last a)) a
  && (dec1_lo (enc2_last a) =? uchar a mod 16)
  && (CHAR64 (enc3 a) =? uchar a mod 64)
  && Byte.eqb (to_char (Z.lor (uchar a / 16 * 16) (uchar a mod 16))) a
  && Byte.eqb (to_char (Z.lor (uchar a / 64 * 64) (uchar a mod 64))) a.

(** What two neighbouring input bytes settle. *)
Definition check2 (a b : byte) : bool :=
  valid_digit (enc1 a b) && valid_digit (enc2 a b)
  && Byte.eqb (dec0 (enc0 a) (enc1 a b)) a
  && (dec1_hi (enc1 a b) =? uchar b / 16 * 16)
  && (dec1_lo (enc2 a b) =? uchar a mod 16)
  && (dec2_hi (enc2 a b) =? uchar b / 64 * 64).

(** Every byte, for checks by enumeration. *)
Definition all_bytes : bytes :=
  map (fun n => to_char (Z.of_nat n)) (seq 0 256).

End Cyrus.

(** ** Exceptions and outcomes *)

(** The Ruby exceptions the extension can leave with.  The first three are
    instances of [Mongo::GssapiNative::Error], told apart by the [rb_raise]
    that builds them; the last is the [TypeError] of [Data_Get_Struct],
    raised by the interpreter when the wrapped value is not a Data object. *)
Inductive exn : Type :=
| SaslError (msg : string) (result : Z) (errstring : string)
    (* raise_gssapi_error: "%s (code %d: %s)" *)
| UnexpectedMechanism (mechanism_selected : string)
    (* "sasl_client_start selected an unexpected mechanism: %s" *)
| EncodeOverflow (written allowed : Z)
    (* "sasl_encode64 claimed to write %u bytes when up to %lu bytes were allowed" *)
| TypeError.

(** What a call of a C function of the extension ends in: a returned value,
    a raised exception, or behaviour the C language leaves undefined (a
    null pointer handed to [strcmp], a read of memory nobody wrote). *)
Inductive outcome (A : Type) : Type :=
| Return (a : A)
| Raise (e : exn)
| Undefined.
Arguments Return {A} a.
Arguments Raise {A} e.
Arguments Undefined {A}.

Definition returns {A} (o : outcome A) : bool :=
  match o with Return _ => true | _ => false end.

(** State and exceptions: the state reached before a raise is kept. *)
Definition M (S A : Type) : Type := S -> outcome A * S.

Definition ret {S A} (a : A) : M S A := fun s => (Return a, s).
Definition raise {S A} (e : exn) : M S A := fun s => (Raise e, s).
Definition undefined {S A} : M S A := fun s => (Undefined, s).
Definition bind {S A B} (m : M S A) (k : A -> M S B) : M S B :=
  fun s =>
    match m s with
    | (Return a, s') => k a s'
    | (Raise e, s') => (Raise e, s')
    | (Undefined, s') => (Undefined, s')
    end.
(** [if (cond) { raise }]: the guard of a raise. *)
Definition when {S} (cond : bool) (m : M S unit) : M S unit :=
  if cond then m else ret tt.
(** A value read through a pointer that may not have been written. *)
Definition deref {S A} (p : option A) : M S A :=
  match p with Some a => ret a | None => undefined end.

Declare Scope sasl_scope.
Delimit Scope sasl_scope with sasl.
Notation "x <- m ;; k" := (bind m (fun x => k))
  (at level 61, m at next level, right associativity) : sasl_scope.
Notation "' p <- m ;; k" := (bind m (fun x => let p := x in k))
  (at level 61, p pattern, m at next level, right associativity) : sasl_scope.
Notation "m ;; k" := (bind m (fun _ => k))
  (at level 61, right associativity) : sasl_scope.
Local Open Scope sasl_scope.

(** ** The Ruby object and libsasl2 *)

(** The instance variables of a [Mongo::Auth::GSSAPIAuthenticator].
    [@context] is nil until [initialize_challenge] wraps a connection. *)
Record authenticator (conn : Type) : Type := {
  iv_valid : bool;
  iv_user_name : string;
  iv_host_name : string;
  iv_service_name : string;
  iv_canonicalize_host_name : bool;
  iv_context : option conn
}.
Arguments iv_valid {conn} _.
Arguments iv_user_name {conn} _.
Arguments iv_host_name {conn} _.
Arguments iv_service_name {conn} _.
Arguments iv_canonicalize_host_name {conn} _.
Arguments iv_context {conn} _.

(** A [sasl_getsimple_t] callback as libsasl2 sees it: the identifier and
    whether a [len] pointer is supplied go in; the result code, [*result]
    and [*len] come out ([None] where nothing was stored). *)
Definition getsimple : Type := Z -> bool -> Z * option string * option Z.

(** The client side of libsasl2: a connection handle type, the library's
    own state [W], and the entry points the extension calls. *)
Record sasl_engine (conn W : Type) : Type := {
  (* servicename, serverFQDN, callbacks -> result, *pconn *)
  sasl_client_new :
    string -> string -> list (Z * option getsimple) -> W -> (Z * conn) * W;
  (* conn, mechlist -> result, clientout/clientoutlen, *mech *)
  sasl_client_start :
    conn -> string -> W -> (Z * bytes * option string) * W;
  (* conn, serverin/serverinlen -> result, clientout/clientoutlen *)
  sasl_client_step : conn -> bytes -> W -> (Z * bytes) * W;
  sasl_errstring : Z -> string
}.
Arguments sasl_client_new {conn W} _.
Arguments sasl_client_start {conn W} _.
Arguments sasl_client_step {conn W} _.
Arguments sasl_errstring {conn W} _.

(** The same library with another step entry point. *)
Definition with_client_step {conn W} (E : sasl_engine conn W)
    (step : conn -> bytes -> W -> (Z * bytes) * W) : sasl_engine conn W :=
  {| sasl_client_new := sasl_client_new E;
     sasl_client_start := sasl_client_start E;
     sasl_client_step := step;
     sasl_errstring := sasl_errstring E |}.

(** The base64 entry points ([sasl/saslutil.h]): input and [outmax] go in;
    the result code, the bytes stored in the destination and [*outlen]
    come out. *)
Record sasl_codec : Type := {
  sasl_encode64 : bytes -> Z -> Z * bytes * option Z;
  sasl_decode64 : bytes -> Z -> Z * bytes * option Z
}.

Definition cyrus_codec : sasl_codec :=
  {| sasl_encode64 := Cyrus.sasl_encode64;
     sasl_decode64 := Cyrus.sasl_decode64 |}.

(** [char encoded_payload[4096]], [char base_payload[4096], payload[4096]] *)
Definition sizeof_payload : Z := 4096.

(** ** The extension *)

(** [a_init]: sets five instance variables and leaves [@context] alone. *)
Definition a_init {conn} (self : authenticator conn)
    (user_name host_name service_name : string)
    (canonicalize_host_name : bool) : authenticator conn :=
  {| iv_valid := true;
     iv_user_name := user_name;
     iv_host_name := host_name;
     iv_service_name := service_name;
     iv_canonicalize_host_name := canonicalize_host_name;
     iv_context := iv_context self |}.

(** [GSSAPIAuthenticator.new]: a freshly allocated object, every instance
    variable nil, handed to [a_init]. *)
Definition new_authenticator {conn}
    (user_name host_name service_name : string)
    (canonicalize_host_name : bool) : authenticator conn :=
  {| iv_valid := true;
     iv_user_name := user_name;
     iv_host_name := host_name;
     iv_service_name := service_name;
     iv_canonicalize_host_name := canonicalize_host_name;
     iv_context := None |}.

Definition valid {conn} (self : authenticator conn) : bool := iv_valid self.

(** [static int sasl_interact(VALUE self, int id, const char **result,
    unsigned *len)].  [len] tells whether the caller supplied a length
    pointer.  The object is threaded through and handed back. *)
Definition sasl_interact {conn} (self : authenticator conn) (id : Z)
    (len : bool) : (Z * option string * option Z) * authenticator conn :=
  if (id =? SASL_CB_AUTHNAME) || (id =? SASL_CB_USER) then
    let user_name := iv_user_name self in
    ((SASL_OK, Some user_name,
      if len
      then Some (to_unsigned (to_int (Z.of_nat (String.length user_name))))
      else None),
     self)
  else ((SASL_FAIL, None, None), self).

(** [self] with [@context] set. *)
Definition set_context {conn} (self : authenticator conn) (c : conn)
  : authenticator conn :=
  {| iv_valid := iv_valid self;
     iv_user_name := iv_user_name self;
     iv_host_name := iv_host_name self;
     iv_service_name := iv_service_name self;
     iv_canonicalize_host_name := iv_canonicalize_host_name self;
     iv_context := Some c |}.

Section Extension.

Context {conn W : Type}.
Variable E : sasl_engine conn W.
Variable C : sasl_codec.

(** The state a method call runs in: the receiver and the library. *)
Definition st : Type := authenticator conn * W.

Definition rb_self : M st (authenticator conn) :=
  fun s => (Return (fst s), s).

(** [rb_iv_set(self, "@context", Data_Wrap_Struct(..., conn))] *)
Definition rb_iv_set_context (c : conn) : M st unit :=
  fun s => (Return tt, (set_context (fst s) c, snd s)).

(** A call into libsasl2. *)
Definition call {A} (f : W -> A * W) : M st A :=
  fun s => let '(a, w) := f (snd s) in (Return a, (fst s, w)).

(** [raise_gssapi_error(msg, result)] *)
Definition raise_gssapi_error {A} (msg : string) (result : Z) : M st A :=
  raise (SaslError msg result (sasl_errstring E result)).

(** [rb_str_new(ptr, len)] *)
Definition rb_str_new (buf : bytes) (len : Z) : M st bytes :=
  deref (buffer_take buf len).

(** [mongo_sasl_context]: [rb_iv_get] yields nil for an instance variable
    never set, and [Data_Get_Struct] raises on nil. *)
Definition mongo_sasl_context : M st conn :=
  self <- rb_self ;;
  match iv_context self with
  | Some c => ret c
  | None => raise TypeError
  end.

(** The callback table of [initialize_challenge]; both entries are
    [sasl_interact] bound to [self]. *)
Definition client_interact (self : authenticator conn)
  : list (Z * option getsimple) :=
  [ (SASL_CB_AUTHNAME, Some (fun id len => fst (sasl_interact self id len)));
    (SASL_CB_USER, Some (fun id len => fst (sasl_interact self id len)));
    (SASL_CB_LIST_END, None) ].

(** [initialize_challenge], lines 142-152: the encode of the first
    token, with the check of the reported length. *)
Definition encode_first_payload (raw_payload : bytes) : M st bytes :=
  let '(result, encoded_payload, outlen) :=
    sasl_encode64 C raw_payload (sizeof_payload - 1) in
  when (c_true (is_sasl_failure result))
    (raise_gssapi_error "sasl_encode64 failed to encode the payload" result) ;;
  encoded_payload_len <- deref outlen ;;
  when (sizeof_payload <=? encoded_payload_len)
    (raise (EncodeOverflow encoded_payload_len sizeof_payload)) ;;
  (* encoded_payload[encoded_payload_len] = 0; *)
  rb_str_new encoded_payload encoded_payload_len.

(** [static VALUE initialize_challenge(VALUE self)] *)
Definition initialize_challenge : M st bytes :=
  let mechanism_list := "GSSAPI" in
  self <- rb_self ;;
  let servicename := iv_service_name self in
  let hostname := iv_host_name self in
  ' (result, c) <-
    call (sasl_client_new E servicename hostname (client_interact self)) ;;
  when (negb (result =? SASL_OK))
    (raise_gssapi_error "sasl_client_new failed" result) ;;
  rb_iv_set_context c ;;
  ' (result, raw_payload, mechanism_selected) <-
    call (sasl_client_start E c mechanism_list) ;;
  when (c_true (is_sasl_failure result))
    (raise_gssapi_error "sasl_client_start failed" result) ;;
  mech <- deref mechanism_selected ;;
  when (negb (strcmp mech "GSSAPI" =? 0))
    (raise (UnexpectedMechanism mech)) ;;
  when (negb (result =? SASL_CONTINUE))
    (raise_gssapi_error
       "sasl_client_start did not return SASL_CONTINUE" result) ;;
  encode_first_payload raw_payload.

(** [evaluate_challenge], lines 163-172: the decode of the inbound
    token into [base_payload]. *)
Definition decode_payload (rb_payload : bytes) : M st bytes :=
  let step_payload_len :=
    to_unsigned (to_int (Z.of_nat (List.length rb_payload))) in
  let step_payload := firstn (Z.to_nat step_payload_len) rb_payload in
  let '(result, base_payload, outlen) :=
    sasl_decode64 C step_payload (sizeof_payload - 1) in
  when (c_true (is_sasl_failure result))
    (raise_gssapi_error "sasl_decode64 failed to decode the payload" result) ;;
  base_payload_len <- deref outlen ;;
  deref (buffer_take base_payload base_payload_len).

(** [evaluate_challenge], lines 182-187: the encode of the next token. *)
Definition encode_next_payload (out : bytes) : M st bytes :=
  let '(result, payload, outlen) :=
    sasl_encode64 C out (sizeof_payload - 1) in
  when (c_true (is_sasl_failure result))
    (raise_gssapi_error "sasl_encode64 failed to encode the payload" result) ;;
  payload_len <- deref outlen ;;
  rb_str_new payload payload_len.

(** [static VALUE evaluate_challenge(VALUE self, VALUE rb_payload)], for
    [rb_payload] a String. *)
Definition evaluate_challenge (rb_payload : bytes) : M st bytes :=
  c <- mongo_sasl_context ;;
  base_payload <- decode_payload rb_payload ;;
  ' (result, out) <- call (sasl_client_step E c base_payload) ;;
  when (c_true (is_sasl_failure result))
    (raise_gssapi_error "sasl_client_step failed" result) ;;
  encode_next_payload out.

End Extension.

(** ** Stand-ins for libsasl2 used in concrete runs *)

(** The messages of [sasl_errstring] for the codes that occur below. *)
Definition mock_errstring (code : Z) : string :=
  if code =? SASL_OK then "successful result"
  else if code =? SASL_CONTINUE then "another step is needed in authentication"
  else if code =? SASL_FAIL then "generic failure"
  else if code =? SASL_BUFOVER then "overflowed buffer"
  else if code =? SASL_BADPROT then "bad protocol / cancel"
  else "undefined error!".

(** A scripted engine.  Connections are numbered; the library state counts
    the connections handed out so far.  [start] is the answer of
    [sasl_client_start], [step] the answer of [sasl_client_step] to the
    bytes it is given. *)
Definition mock_engine (start : Z * bytes * option string)
    (step : bytes -> Z * bytes) : sasl_engine nat nat :=
  {| sasl_client_new := fun _ _ _ w => ((SASL_OK, w), S w);
     sasl_client_start := fun _ _ w => (start, w);
     sasl_client_step := fun _ serverin w => (step serverin, w);
     sasl_errstring := mock_errstring |}.

(** A codec whose encoder reports success and a full 4096-byte buffer,
    whatever capacity it was given. *)
Definition overrunning_codec : sasl_codec :=
  {| sasl_encode64 := fun _ _ => (SASL_OK, repeat "A"%byte 4096, Some 4096);
     sasl_decode64 := Cyrus.sasl_decode64 |}.

Definition alice : authenticator nat :=
  new_authenticator "alice" "db.example.com" "mongodb" false.

(** ** Variants of an engine *)

(** The same library with another entry point for creating a connection,
    or for starting the exchange: what a method does not call, it cannot
    tell apart. *)
Definition with_client_new {conn W} (E : sasl_engine conn W)
    (new : string -> string -> list (Z * option getsimple) -> W
           -> (Z * conn) * W) : sasl_engine conn W :=
  {| sasl_client_new := new;
     sasl_client_start := sasl_client_start E;
     sasl_client_step := sasl_client_step E;
     sasl_errstring := sasl_errstring E |}.

Definition with_client_start {conn W} (E : sasl_engine conn W)
    (start : conn -> string -> W -> (Z * bytes * option string) * W)
  : sasl_engine conn W :=
  {| sasl_client_new := sasl_client_new E;
     sasl_client_start := start;
     sasl_client_step := sasl_client_step E;
     sasl_errstring := sasl_errstring E |}.

(** The step entry point of [E] with every result code that is not
    negative replaced by SASL_OK. *)
Definition sign_only_step {conn W} (E : sasl_engine conn W)
  : conn -> bytes -> W -> (Z * bytes) * W :=
  fun c serverin w =>
    let '((result, out), w') := sasl_client_step E c serverin w in
    ((if result <? 0 then result else SASL_OK, out), w').

(** An engine that cannot create connections: [sasl_client_new] answers
    [code] and leaves the library as it is. *)
Definition refusing_engine (code : Z) : sasl_engine nat nat :=
  with_client_new
    (mock_engine (SASL_CONTINUE, [x01; x02], Some "GSSAPI")
                 (fun _ => (SASL_OK, [x03; x04])))
    (fun _ _ _ w => ((code, 0%nat), w)).

(** ** Sequences of method calls *)

(** What Ruby code does with an authenticator: it calls
    [initialize_challenge] and [evaluate_challenge] on it, one call after
    the other, and may rescue what they raise. *)
Inductive method_call : Type :=
| Initiate
| Step (rb_payload : bytes).

Definition call_method {conn W} (E : sasl_engine conn W) (C : sasl_codec)
    (m : method_call) : M (st (conn := conn) (W := W)) bytes :=
  match m with
  | Initiate => initialize_challenge E C
  | Step rb_payload => evaluate_challenge E C rb_payload
  end.

(** The state after a sequence of calls, every exception rescued; [None]
    once a call has run into undefined behaviour, after which nothing
    can be said. *)
Fixpoint call_methods {conn W} (E : sasl_engine conn W) (C : sasl_codec)
    (ms : list method_call) (s : st (conn := conn) (W := W))
  : option (st (conn := conn) (W := W)) :=
  match ms with
  | [] => Some s
  | m :: ms' =>
      match call_method E C m s with
      | (Undefined, _) => None
      | (_, s') => call_methods E C ms' s'
      end
  end.

(** ** A user name too long for [unsigned] *)

(** [n] copies of one character. *)
Fixpoint string_of_copies (c : ascii) (n : nat) : string :=
  match n with
  | O => EmptyString
  | S n' => String c (string_of_copies c n')
  end.

(** An authenticator whose user name has 2^32 bytes. *)
Definition long_named : authenticator nat :=
  new_authenticator (string_of_copies "a" (Z.to_nat 4294967296))
    "db.example.com" "mongodb" false.

(** ** Facts about the C helpers *)

Lemma is_sasl_failure_neg result :
  result < 0 -> c_true (is_sasl_failure result) = true.
Proof.
  intros H. unfold is_sasl_failure.
  destruct (Z.ltb_spec result 0); [reflexivity | lia].
Qed.

Lemma is_sasl_failure_nonneg result :
  0 <= result -> c_true (is_sasl_failure result) = false.
Proof.
  intros H. unfold is_sasl_failure.
  destruct (Z.ltb_spec result 0); [lia | reflexivity].
Qed.

Lemma to_unsigned_small z : 0 <= z < 4294967296 -> to_unsigned z = z.
Proof. intros H. unfold to_unsigned. now apply Z.mod_small. Qed.

Lemma to_unsigned_to_int_small z :
  0 <= z < 4294967296 -> to_unsigned (to_int z) = z.
Proof.
  intros H. unfold to_unsigned, to_int.
  rewrite Zminus_mod_idemp_l.
  replace (z + 2 ^ 31 - 2 ^ 31) with z by lia.
  now apply Z.mod_small.
Qed.

Lemma to_unsigned_to_int z : to_unsigned (to_int z) = z mod 2 ^ 32.
Proof.
  unfold to_unsigned, to_int.
  rewrite Zminus_mod_idemp_l. f_equal. lia.
Qed.

Lemma string_of_copies_length c n : String.length (string_of_copies c n) = n.
Proof. induction n as [|n IH]; cbn [string_of_copies String.length]; congruence. Qed.

Lemma nat_of_ascii_inj c1 c2 :
  nat_of_ascii c1 = nat_of_ascii c2 -> c1 = c2.
Proof.
  intros H. rewrite <- (ascii_nat_embedding c1), <- (ascii_nat_embedding c2).
  now rewrite H.
Qed.

Lemma nat_of_ascii_zero_only c : c <> Ascii.zero -> nat_of_ascii c <> 0%nat.
Proof.
  intros Hc H. apply Hc. apply nat_of_ascii_inj. exact H.
Qed.

(** [strcmp] answers 0 on equal strings. *)
Lemma strcmp_refl s : strcmp s s = 0.
Proof.
  induction s as [|c s IH]; simpl; [reflexivity|].
  now rewrite Ascii.eqb_refl.
Qed.

(** On C strings [strcmp] answers 0 only on equal ones. *)
Lemma strcmp_zero_eq s1 : forall s2,
  c_string s1 = true -> c_string s2 = true -> strcmp s1 s2 = 0 -> s1 = s2.
Proof.
  induction s1 as [|c1 r1 IH]; intros [|c2 r2] H1 H2 H; simpl in *.
  - reflexivity.
  - apply andb_prop in H2. destruct H2 as [Hc _].
    apply negb_true_iff, Ascii.eqb_neq, nat_of_ascii_zero_only in Hc. lia.
  - apply andb_prop in H1. destruct H1 as [Hc _].
    apply negb_true_iff, Ascii.eqb_neq, nat_of_ascii_zero_only in Hc. lia.
  - apply andb_prop in H1. apply andb_prop in H2.
    destruct (Ascii.eqb_spec c1 c2) as [->|Hne].
    + f_equal. apply IH; tauto.
    + exfalso. apply Hne. apply nat_of_ascii_inj. lia.
Qed.

(** ** The codec: one group of digits *)

Module CyrusFacts.
Import Cyrus.

Lemma all_bytes_complete b : existsb (Byte.eqb b) all_bytes = true.
Proof. destruct b; vm_compute; reflexivity. Qed.

Lemma forall_bytes (P : byte -> bool) :
  forallb P all_bytes = true -> forall b, P b = true.
Proof.
  intros H b. rewrite forallb_forall in H. apply H.
  pose proof (all_bytes_complete b) as Hb.
  apply existsb_exists in Hb. destruct Hb as [x [Hin Hx]].
  apply Byte.byte_dec_bl in Hx. now subst.
Qed.

Lemma forall_bytes2 (P : byte -> byte -> bool) :
  forallb (fun a => forallb (P a) all_bytes) all_bytes = true ->
  forall a b, P a b = true.
Proof.
  intros H a b.
  apply (forall_bytes (P a)).
  apply (forall_bytes (fun a => forallb (P a) all_bytes) H).
Qed.

Lemma check1_all a : check1 a = true.
Proof. revert a. apply forall_bytes. vm_compute. reflexivity. Qed.

Lemma check2_all a b : check2 a b = true.
Proof. revert a b. apply forall_bytes2. vm_compute. reflexivity. Qed.

End CyrusFacts.

Module CyrusGroup.
Import Cyrus CyrusFacts.

Ltac split_check H :=
  repeat match type of H with
         | (_ && _ = true) =>
             let H' := fresh "Hc" in
             apply andb_prop in H; destruct H as [H H']
         end.

Lemma valid_digit_inv c :
  valid_digit c = true ->
  is_pad c = false /\ (CHAR64 c =? -1) = false /\ c <> x0d.
Proof.
  unfold valid_digit. intros H. split_check H.
  apply negb_true_iff in H, Hc, Hc0.
  repeat split; auto using Byte.eqb_false.
Qed.

Lemma valid_enc0 a : valid_digit (enc0 a) = true.
Proof. pose proof (check1_all a) as H. unfold check1 in H. split_check H. exact H. Qed.

Lemma valid_enc1_last a : valid_digit (enc1_last a) = true.
Proof. pose proof (check1_all a) as H. unfold check1 in H. split_check H. assumption. Qed.

Lemma valid_enc2_last a : valid_digit (enc2_last a) = true.
Proof. pose proof (check1_all a) as H. unfold check1 in H. split_check H. assumption. Qed.

Lemma valid_enc3 a : valid_digit (enc3 a) = true.
Proof. pose proof (check1_all a) as H. unfold check1 in H. split_check H. assumption. Qed.

Lemma valid_enc1 a b : valid_digit (enc1 a b) = true.
Proof. pose proof (check2_all a b) as H. unfold check2 in H. split_check H. exact H. Qed.

Lemma valid_enc2 a b : valid_digit (enc2 a b) = true.
Proof. pose proof (check2_all a b) as H. unfold check2 in H. split_check H. assumption. Qed.

Lemma dec0_enc a b : dec0 (enc0 a) (enc1 a b) = a.
Proof.
  pose proof (check2_all a b) as H. unfold check2 in H. split_check H.
  now apply Byte.byte_dec_bl.
Qed.

Lemma dec0_enc_last a : dec0 (enc0 a) (enc1_last a) = a.
Proof.
  pose proof (check1_all a) as H. unfold check1 in H. split_check H.
  now apply Byte.byte_dec_bl.
Qed.

Lemma join_nibbles b :
  to_char (Z.lor (uchar b / 16 * 16) (uchar b mod 16)) = b.
Proof.
  pose proof (check1_all b) as H. unfold check1 in H. split_check H.
  now apply Byte.byte_dec_bl.
Qed.

Lemma join_sextet c :
  to_char (Z.lor (uchar c / 64 * 64) (uchar c mod 64)) = c.
Proof.
  pose proof (check1_all c) as H. unfold check1 in H. split_check H.
  now apply Byte.byte_dec_bl.
Qed.

Lemma dec1_hi_enc a b : dec1_hi (enc1 a b) = uchar b / 16 * 16.
Proof.
  pose proof (check2_all a b) as H. unfold check2 in H. split_check H.
  now apply Z.eqb_eq.
Qed.

Lemma dec1_lo_enc b c : dec1_lo (enc2 b c) = uchar b mod 16.
Proof.
  pose proof (check2_all b c) as H. unfold check2 in H. split_check H.
  now apply Z.eqb_eq.
Qed.

Lemma dec1_lo_enc_last b : dec1_lo (enc2_last b) = uchar b mod 16.
Proof.
  pose proof (check1_all b) as H. unfold check1 in H. split_check H.
  now apply Z.eqb_eq.
Qed.

Lemma dec2_hi_enc b c : dec2_hi (enc2 b c) = uchar c / 64 * 64.
Proof.
  pose proof (check2_all b c) as H. unfold check2 in H. split_check H.
  now apply Z.eqb_eq.
Qed.

Lemma CHAR64_enc3 c : CHAR64 (enc3 c) = uchar c mod 64.
Proof.
  pose proof (check1_all c) as H. unfold check1 in H. split_check H.
  now apply Z.eqb_eq.
Qed.

Lemma dec1_enc a b c : dec1 (enc1 a b) (enc2 b c) = b.
Proof.
  change (dec1 (enc1 a b) (enc2 b c))
    with (to_char (Z.lor (dec1_hi (enc1 a b)) (dec1_lo (enc2 b c)))).
  rewrite dec1_hi_enc, dec1_lo_enc. apply join_nibbles.
Qed.

Lemma dec1_enc_last a b : dec1 (enc1 a b) (enc2_last b) = b.
Proof.
  change (dec1 (enc1 a b) (enc2_last b))
    with (to_char (Z.lor (dec1_hi (enc1 a b)) (dec1_lo (enc2_last b)))).
  rewrite dec1_hi_enc, dec1_lo_enc_last. apply join_nibbles.
Qed.

Lemma dec2_enc b c : dec2 (enc2 b c) (enc3 c) = c.
Proof.
  change (dec2 (enc2 b c) (enc3 c))
    with (to_char (Z.lor (dec2_hi (enc2 b c)) (CHAR64 (enc3 c)))).
  rewrite dec2_hi_enc, CHAR64_enc3. apply join_sextet.
Qed.

End CyrusGroup.

(** ** The codec: whole buffers *)

Module CyrusLoop.
Import Cyrus CyrusFacts CyrusGroup.

(** Induction on byte lists three bytes at a time, as the loops go. *)
Lemma list_ind3 {A} (P : list A -> Prop) :
  P [] -> (forall a, P [a]) -> (forall a b, P [a; b]) ->
  (forall a b c l, P l -> P (a :: b :: c :: l)) ->
  forall l, P l.
Proof.
  intros H0 H1 H2 H3 l.
  assert (H : P l /\ (forall a, P (a :: l)) /\ (forall a b, P (a :: b :: l))).
  { induction l as [|x l [IH0 [IH1 IH2]]]; auto. }
  exact (proj1 H).
Qed.

Lemma encode64_loop_length inp :
  Z.of_nat (List.length (encode64_loop inp))
  = (Z.of_nat (List.length inp) + 2) / 3 * 4.
Proof.
  induction inp as [| a | a b | a b c l IH] using list_ind3;
    try reflexivity.
  cbn [encode64_loop List.length].
  rewrite !Nat2Z.inj_succ, IH.
  replace (Z.succ (Z.succ (Z.succ (Z.of_nat (List.length l)))) + 2)
    with (Z.of_nat (List.length l) + 2 + 1 * 3) by lia.
  rewrite Z.div_add by lia. lia.
Qed.

Ltac digit_facts :=
  repeat match goal with
  | |- context [enc0 ?a] =>
      lazymatch goal with
      | _ : is_pad (enc0 a) = false |- _ => fail
      | _ => destruct (valid_digit_inv _ (valid_enc0 a)) as [? [? ?]]
      end
  | |- context [enc1 ?a ?b] =>
      lazymatch goal with
      | _ : is_pad (enc1 a b) = false |- _ => fail
      | _ => destruct (valid_digit_inv _ (valid_enc1 a b)) as [? [? ?]]
      end
  | |- context [enc2 ?a ?b] =>
      lazymatch goal with
      | _ : is_pad (enc2 a b) = false |- _ => fail
      | _ => destruct (valid_digit_inv _ (valid_enc2 a b)) as [? [? ?]]
      end
  | |- context [enc3 ?a] =>
      lazymatch goal with
      | _ : is_pad (enc3 a) = false |- _ => fail
      | _ => destruct (valid_digit_inv _ (valid_enc3 a)) as [? [? ?]]
      end
  | |- context [enc1_last ?a] =>
      lazymatch goal with
      | _ : is_pad (enc1_last a) = false |- _ => fail
      | _ => destruct (valid_digit_inv _ (valid_enc1_last a)) as [? [? ?]]
      end
  | |- context [enc2_last ?a] =>
      lazymatch goal with
      | _ : is_pad (enc2_last a) = false |- _ => fail
      | _ => destruct (valid_digit_inv _ (valid_enc2_last a)) as [? [? ?]]
      end
  end.

Lemma is_pad_pad : is_pad pad = true.
Proof. reflexivity. Qed.

Ltac same_count :=
  match goal with
  | |- (_, _, Some ?x) = (_, _, Some ?y) =>
      replace y with x by lia; reflexivity
  end.

Ltac leb_false :=
  repeat match goal with
  | |- context [?m <=? ?n] =>
      let H := fresh in
      assert (H : (m <=? n) = false) by (apply Z.leb_gt; lia);
      rewrite H; clear H
  end.

(** Decoding what the encoder wrote gives the bytes back, as long as the
    count stays below [outmax]. *)
Lemma decode64_loop_encode inp : forall out len outmax,
  len + Z.of_nat (List.length inp) < outmax ->
  decode64_loop (encode64_loop inp) out len outmax false
  = (SASL_OK, out ++ inp ++ [x00], Some (len + Z.of_nat (List.length inp))).
Proof.
  induction inp as [| a | a b | a b c l IH] using list_ind3;
    intros out len outmax Hlen.
  - cbn [encode64_loop decode64_loop List.length app].
    now rewrite Z.add_0_r.
  - cbn [encode64_loop decode64_loop List.length] in *.
    digit_facts.
    repeat match goal with H : _ = false |- _ => rewrite H end.
    rewrite is_pad_pad. cbn [negb andb orb].
    leb_false.
    rewrite dec0_enc_last. rewrite <- !app_assoc. cbn [app].
    reflexivity.
  - cbn [encode64_loop decode64_loop List.length] in *.
    digit_facts.
    repeat match goal with H : _ = false |- _ => rewrite H end.
    rewrite is_pad_pad. cbn [negb andb orb].
    leb_false.
    rewrite dec0_enc, dec1_enc_last. rewrite <- !app_assoc. cbn [app].
    same_count.
  - cbn [encode64_loop decode64_loop List.length] in *.
    digit_facts.
    repeat match goal with H : _ = false |- _ => rewrite H end.
    cbn [negb andb orb].
    leb_false.
    rewrite dec0_enc, dec1_enc, dec2_enc.
    rewrite IH by lia. rewrite <- !app_assoc. cbn [app].
    same_count.
Qed.

End CyrusLoop.

Module CyrusBuffers.
Import Cyrus CyrusFacts CyrusGroup CyrusLoop.

Lemma sasl_decode64_not_cr (c : byte) (tl : bytes) outmax :
  c <> x0d ->
  sasl_decode64 (c :: tl) outmax = decode64_loop (c :: tl) [] 0 outmax false.
Proof. intros H. destruct c; try reflexivity. now elim H. Qed.

Lemma buffer_take_app (l tl : bytes) :
  buffer_take (l ++ tl) (Z.of_nat (List.length l)) = Some l.
Proof.
  unfold buffer_take.
  rewrite Nat2Z.id, length_app, Nat2Z.inj_add.
  destruct (Z.leb_spec 0 (Z.of_nat (List.length l))); [|lia].
  destruct (Z.leb_spec (Z.of_nat (List.length l))
              (Z.of_nat (List.length l) + Z.of_nat (List.length tl))); [|lia].
  cbn [andb]. f_equal.
  rewrite firstn_app, Nat.sub_diag, firstn_all. cbn [firstn].
  apply app_nil_r.
Qed.

(** [sasl_decode64] on the encoder's output. *)
Lemma sasl_decode64_encode inp outmax :
  Z.of_nat (List.length inp) < outmax ->
  sasl_decode64 (encode64_loop inp) outmax
  = (SASL_OK, inp ++ [x00], Some (Z.of_nat (List.length inp))).
Proof.
  intros H.
  assert (Hgo : decode64_loop (encode64_loop inp) [] 0 outmax false
                = (SASL_OK, inp ++ [x00], Some (Z.of_nat (List.length inp)))).
  { rewrite decode64_loop_encode by lia. reflexivity. }
  destruct inp as [|a [|b [|c l]]]; cbn [encode64_loop] in *;
    try exact Hgo;
    (rewrite sasl_decode64_not_cr
       by exact (proj2 (proj2 (valid_digit_inv _ (valid_enc0 a))));
     exact Hgo).
Qed.

(** [sasl_encode64] when the digits fit: at most 3069 bytes make at most
    4092 digits. *)
Lemma sasl_encode64_fits inp outmax :
  Z.of_nat (List.length inp) < 2 ^ 31 ->
  (Z.of_nat (List.length inp) + 2) / 3 * 4 < outmax ->
  sasl_encode64 inp outmax
  = (SASL_OK, encode64_loop inp ++ [x00],
     Some (Z.of_nat (List.length (encode64_loop inp)))).
Proof.
  intros Hn H. unfold sasl_encode64.
  change (2 ^ 31) with 2147483648 in Hn.
  assert (Hdiv : 0 <= (Z.of_nat (List.length inp) + 2) / 3
                 /\ 3 * ((Z.of_nat (List.length inp) + 2) / 3)
                    <= Z.of_nat (List.length inp) + 2).
  { split; [apply Z.div_pos; lia | apply Z.mul_div_le; lia]. }
  rewrite (to_unsigned_small (Z.of_nat (List.length inp))) by lia.
  rewrite (to_unsigned_small (Z.of_nat (List.length inp) + 2)) by lia.
  rewrite to_unsigned_small by lia.
  rewrite encode64_loop_length.
  destruct (Z.leb_spec outmax ((Z.of_nat (List.length inp) + 2) / 3 * 4));
    [lia | reflexivity].
Qed.

(** [sasl_encode64] when they do not. *)
Lemma sasl_encode64_overflows inp outmax :
  Z.of_nat (List.length inp) < 2 ^ 31 ->
  outmax <= (Z.of_nat (List.length inp) + 2) / 3 * 4 ->
  sasl_encode64 inp outmax
  = (SASL_BUFOVER, [], Some ((Z.of_nat (List.length inp) + 2) / 3 * 4)).
Proof.
  intros Hn H. unfold sasl_encode64.
  change (2 ^ 31) with 2147483648 in Hn.
  assert (Hdiv : 0 <= (Z.of_nat (List.length inp) + 2) / 3
                 /\ 3 * ((Z.of_nat (List.length inp) + 2) / 3)
                    <= Z.of_nat (List.length inp) + 2).
  { split; [apply Z.div_pos; lia | apply Z.mul_div_le; lia]. }
  rewrite (to_unsigned_small (Z.of_nat (List.length inp))) by lia.
  rewrite (to_unsigned_small (Z.of_nat (List.length inp) + 2)) by lia.
  rewrite to_unsigned_small by lia.
  destruct (Z.leb_spec outmax ((Z.of_nat (List.length inp) + 2) / 3 * 4));
    [reflexivity | lia].
Qed.

End CyrusBuffers.

(** ** The transcoding blocks over the library's codec *)

Section Transcoding.
Import Cyrus CyrusLoop CyrusBuffers.

Context {conn W : Type}.
Variable E : sasl_engine conn W.

Lemma digits_bound (inp : bytes) :
  Z.of_nat (List.length inp) <= 3069 ->
  (Z.of_nat (List.length inp) + 2) / 3 * 4 <= 4092.
Proof.
  intros H.
  assert ((Z.of_nat (List.length inp) + 2) / 3 < 1024); [|lia].
  apply Z.div_lt_upper_bound; lia.
Qed.

Lemma encode_first_payload_fits (inp : bytes) (s : st (conn := conn) (W := W)) :
  Z.of_nat (List.length inp) <= 3069 ->
  encode_first_payload E cyrus_codec inp s = (Return (encode64_loop inp), s).
Proof.
  intros H. pose proof (digits_bound inp H) as Hd.
  unfold encode_first_payload, cyrus_codec, sasl_encode64, sizeof_payload.
  rewrite sasl_encode64_fits
    by (change (2 ^ 31) with 2147483648; lia).
  unfold bind, when, deref, ret, rb_str_new. cbn.
  rewrite encode64_loop_length.
  destruct (Z.leb_spec 4096 ((Z.of_nat (List.length inp) + 2) / 3 * 4));
    [lia|].
  rewrite <- encode64_loop_length, buffer_take_app. reflexivity.
Qed.

Lemma encode_next_payload_fits (inp : bytes) (s : st (conn := conn) (W := W)) :
  Z.of_nat (List.length inp) <= 3069 ->
  encode_next_payload E cyrus_codec inp s = (Return (encode64_loop inp), s).
Proof.
  intros H. pose proof (digits_bound inp H) as Hd.
  unfold encode_next_payload, cyrus_codec, sasl_encode64, sizeof_payload.
  rewrite sasl_encode64_fits
    by (change (2 ^ 31) with 2147483648; lia).
  unfold bind, when, deref, ret, rb_str_new. cbn.
  rewrite buffer_take_app. reflexivity.
Qed.

Lemma decode_payload_fits (inp : bytes) (s : st (conn := conn) (W := W)) :
  Z.of_nat (List.length inp) <= 4094 ->
  decode_payload E cyrus_codec (encode64_loop inp) s = (Return inp, s).
Proof.
  intros H.
  assert (Hq : 0 <= (Z.of_nat (List.length inp) + 2) / 3 < 1366).
  { split; [apply Z.div_pos; lia | apply Z.div_lt_upper_bound; lia]. }
  unfold decode_payload, cyrus_codec, sasl_decode64, sizeof_payload.
  rewrite to_unsigned_to_int_small
    by (rewrite encode64_loop_length; lia).
  rewrite Nat2Z.id, firstn_all.
  rewrite sasl_decode64_encode by lia.
  unfold bind, when, deref, ret. cbn.
  rewrite buffer_take_app. reflexivity.
Qed.

End Transcoding.

(** ** The two methods, step by step *)

Section Driver.

Context {conn W : Type}.
Variable E : sasl_engine conn W.
Variable C : sasl_codec.

Ltac run := unfold bind, call, rb_self, rb_iv_set_context, when, deref,
              ret, raise, undefined, raise_gssapi_error; cbn [fst snd].

(** The transcoding blocks read and write no state. *)
Lemma encode_first_payload_state raw (s : st (conn := conn) (W := W)) :
  snd (encode_first_payload E C raw s) = s.
Proof.
  unfold encode_first_payload, rb_str_new.
  destruct (sasl_encode64 C raw (sizeof_payload - 1)) as [[result buf] outlen].
  run. destruct (c_true (is_sasl_failure result)); [reflexivity|].
  destruct outlen as [n|]; [|reflexivity].
  destruct (sizeof_payload <=? n); [reflexivity|].
  destruct (buffer_take buf n); reflexivity.
Qed.

Lemma encode_next_payload_state out (s : st (conn := conn) (W := W)) :
  snd (encode_next_payload E C out s) = s.
Proof.
  unfold encode_next_payload, rb_str_new.
  destruct (sasl_encode64 C out (sizeof_payload - 1)) as [[result buf] outlen].
  run. destruct (c_true (is_sasl_failure result)); [reflexivity|].
  destruct outlen as [n|]; [|reflexivity].
  destruct (buffer_take buf n); reflexivity.
Qed.

Lemma decode_payload_state payload (s : st (conn := conn) (W := W)) :
  snd (decode_payload E C payload s) = s.
Proof.
  unfold decode_payload.
  destruct (sasl_decode64 C _ (sizeof_payload - 1)) as [[result buf] outlen].
  run. destruct (c_true (is_sasl_failure result)); [reflexivity|].
  destruct outlen as [n|]; [|reflexivity].
  destruct (buffer_take buf n); reflexivity.
Qed.

(** [initialize_challenge] up to the call of [sasl_client_start]. *)
Lemma initialize_challenge_started self w c w1 start w2 :
  sasl_client_new E (iv_service_name self) (iv_host_name self)
    (client_interact self) w = ((SASL_OK, c), w1) ->
  sasl_client_start E c "GSSAPI" w1 = (start, w2) ->
  initialize_challenge E C (self, w)
  = (let '(result, raw_payload, mechanism_selected) := start in
     when (c_true (is_sasl_failure result))
       (raise_gssapi_error E "sasl_client_start failed" result) ;;
     mech <- deref mechanism_selected ;;
     when (negb (strcmp mech "GSSAPI" =? 0))
       (raise (UnexpectedMechanism mech)) ;;
     when (negb (result =? SASL_CONTINUE))
       (raise_gssapi_error E
          "sasl_client_start did not return SASL_CONTINUE" result) ;;
     encode_first_payload E C raw_payload) (set_context self c, w2).
Proof.
  intros Hnew Hstart. unfold initialize_challenge.
  unfold bind at 1. unfold rb_self at 1. cbn [fst snd].
  unfold bind at 1. unfold call at 1. cbn [fst snd]. rewrite Hnew.
  unfold bind at 1. cbn [when negb Z.eqb SASL_OK ret].
  unfold bind at 1. unfold rb_iv_set_context at 1. cbn [fst snd].
  unfold bind at 1. unfold call at 1. cbn [fst snd]. rewrite Hstart.
  destruct start as [[result raw_payload] mechanism_selected].
  reflexivity.
Qed.

(** When the engine answers as the handshake expects, what is left of
    [initialize_challenge] is the encode. *)
Lemma initialize_challenge_to_encode self w c w1 raw_payload w2 :
  sasl_client_new E (iv_service_name self) (iv_host_name self)
    (client_interact self) w = ((SASL_OK, c), w1) ->
  sasl_client_start E c "GSSAPI" w1
    = ((SASL_CONTINUE, raw_payload, Some "GSSAPI"), w2) ->
  initialize_challenge E C (self, w)
  = encode_first_payload E C raw_payload (set_context self c, w2).
Proof.
  intros Hnew Hstart.
  rewrite (initialize_challenge_started _ _ _ _ _ _ Hnew Hstart).
  reflexivity.
Qed.

(** When a context is there, the decode succeeds and the engine's step
    does not fail, what is left of [evaluate_challenge] is the encode. *)
Lemma evaluate_challenge_to_encode self w c payload base result out w' :
  iv_context self = Some c ->
  fst (decode_payload E C payload (self, w)) = Return base ->
  sasl_client_step E c base w = ((result, out), w') ->
  0 <= result ->
  evaluate_challenge E C payload (self, w)
  = encode_next_payload E C out (self, w').
Proof.
  intros Hctx Hdec Hstep Hres.
  pose proof (decode_payload_state payload (self, w)) as Hs.
  unfold evaluate_challenge, mongo_sasl_context.
  unfold bind at 1. unfold bind at 1. unfold rb_self at 1. cbn [fst snd].
  rewrite Hctx. unfold ret at 1.
  unfold bind at 1.
  destruct (decode_payload E C payload (self, w)) as [o s'].
  cbn [fst snd] in Hdec, Hs. subst o s'.
  unfold bind at 1. unfold call at 1. cbn [fst snd]. rewrite Hstep.
  unfold bind at 1. rewrite (is_sasl_failure_nonneg _ Hres).
  reflexivity.
Qed.

End Driver.

(** * The claims *)

(** ** Mechanism validation *)

(** C1, as amended.  Whenever [sasl_client_start] does not fail (its result
    code is not negative) and stores a mechanism name -- a C string, the
    empty one included -- other than "GSSAPI", [initialize_challenge]
    raises the unexpected-mechanism error carrying exactly that name, and
    so returns no token.  The context created for the attempt stays in
    [@context]. *)
Theorem initiate_rejects_other_mechanism {conn W}
    (E : sasl_engine conn W) (C : sasl_codec)
    (self : authenticator conn) (w w1 w2 : W) (c : conn)
    (result : Z) (raw_payload : bytes) (mech : string) :
  sasl_client_new E (iv_service_name self) (iv_host_name self)
    (client_interact self) w = ((SASL_OK, c), w1) ->
  sasl_client_start E c "GSSAPI" w1
    = ((result, raw_payload, Some mech), w2) ->
  0 <= result ->
  c_string mech = true ->
  mech <> "GSSAPI" ->
  initialize_challenge E C (self, w)
  = (Raise (UnexpectedMechanism mech), (set_context self c, w2)).
Proof.
  intros Hnew Hstart Hres Hc Hne.
  rewrite (initialize_challenge_started E C _ _ _ _ _ _ Hnew Hstart).
  assert (Hcmp : (strcmp mech "GSSAPI" =? 0) = false).
  { apply Z.eqb_neq. intros Heq. apply Hne. apply strcmp_zero_eq; auto. }
  cbv beta iota delta [bind when deref ret raise].
  rewrite (is_sasl_failure_nonneg _ Hres), Hcmp. reflexivity.
Qed.

(** The empty selection is such a name. *)
Lemma initiate_rejects_empty_mechanism :
  initialize_challenge
    (mock_engine (SASL_CONTINUE, [x01; x02], Some "") (fun _ => (SASL_OK, [])))
    cyrus_codec (alice, 0%nat)
  = (Raise (UnexpectedMechanism ""), (set_context alice 0%nat, 1%nat)).
Proof.
  apply (initiate_rejects_other_mechanism
           (mock_engine (SASL_CONTINUE, [x01; x02], Some "")
                        (fun _ => (SASL_OK, [])))
           cyrus_codec alice 0%nat 1%nat 1%nat 0%nat
           SASL_CONTINUE [x01; x02] "").
  - reflexivity.
  - reflexivity.
  - unfold SASL_CONTINUE. lia.
  - reflexivity.
  - discriminate.
Defined.

(** C1 as stated fails on a null selection: [strcmp] is handed the null
    pointer, which is undefined behaviour, and no mechanism error is
    raised. *)
Lemma initiate_null_mechanism_undefined :
  let run :=
    initialize_challenge
      (mock_engine (SASL_CONTINUE, [x01; x02], None) (fun _ => (SASL_OK, [])))
      cyrus_codec (alice, 0%nat) in
  fst run = Undefined /\
  forall mech, fst run <> Raise (UnexpectedMechanism mech).
Proof.
  cbv zeta. split; [reflexivity|].
  intros mech H. discriminate H.
Qed.

(** ** The result code of the first round *)

(** C2, as amended.  When [sasl_client_start] answers with a result code
    other than SASL_CONTINUE, [initialize_challenge] never returns a token;
    and when that code is negative, or the selected mechanism is "GSSAPI",
    it raises the libsasl error carrying the code and [sasl_errstring] of
    the code. *)
Theorem initiate_requires_continue {conn W}
    (E : sasl_engine conn W) (C : sasl_codec)
    (self : authenticator conn) (w w1 w2 : W) (c : conn)
    (result : Z) (raw_payload : bytes) (mechanism_selected : option string) :
  sasl_client_new E (iv_service_name self) (iv_host_name self)
    (client_interact self) w = ((SASL_OK, c), w1) ->
  sasl_client_start E c "GSSAPI" w1
    = ((result, raw_payload, mechanism_selected), w2) ->
  result <> SASL_CONTINUE ->
  returns (fst (initialize_challenge E C (self, w))) = false /\
  (result < 0 \/ mechanism_selected = Some "GSSAPI" ->
   initialize_challenge E C (self, w)
   = (Raise (SaslError
               (if result <? 0 then "sasl_client_start failed"
                else "sasl_client_start did not return SASL_CONTINUE")
               result (sasl_errstring E result)),
      (set_context self c, w2))).
Proof.
  intros Hnew Hstart Hres.
  rewrite (initialize_challenge_started E C _ _ _ _ _ _ Hnew Hstart).
  assert (Hcont : (result =? SASL_CONTINUE) = false) by now apply Z.eqb_neq.
  cbv beta iota delta [bind when deref ret raise raise_gssapi_error undefined].
  destruct (Z.ltb_spec result 0) as [Hneg|Hpos].
  - rewrite (is_sasl_failure_neg _ Hneg). split; [reflexivity|].
    intros _. reflexivity.
  - rewrite (is_sasl_failure_nonneg _ Hpos).
    destruct mechanism_selected as [mech|].
    + destruct (strcmp mech "GSSAPI" =? 0) eqn:Hcmp; cbn [negb].
      * rewrite Hcont. cbn [negb]. split; [reflexivity|].
        intros _. reflexivity.
      * split; [reflexivity|].
        intros [Hlt|Hm]; [lia|].
        injection Hm as ->. rewrite strcmp_refl in Hcmp. discriminate.
    + split; [reflexivity|].
      intros [Hlt|Hm]; [lia | discriminate].
Qed.

(** Outright success on the first round with "GSSAPI" selected. *)
Lemma initiate_requires_continue_on_success :
  initialize_challenge
    (mock_engine (SASL_OK, [x01; x02], Some "GSSAPI") (fun _ => (SASL_OK, [])))
    cyrus_codec (alice, 0%nat)
  = (Raise (SaslError "sasl_client_start did not return SASL_CONTINUE"
              0 "successful result"),
     (set_context alice 0%nat, 1%nat)).
Proof.
  refine (proj2 (initiate_requires_continue
           (mock_engine (SASL_OK, [x01; x02], Some "GSSAPI")
                        (fun _ => (SASL_OK, [])))
           cyrus_codec alice 0%nat 1%nat 1%nat 0%nat
           SASL_OK [x01; x02] (Some "GSSAPI") _ _ _) _).
  - reflexivity.
  - reflexivity.
  - discriminate.
  - right. reflexivity.
Defined.

(** C2 as stated fails when the code is not negative and the mechanism is
    wrong: the mechanism check comes first and its error is the one
    raised. *)
Lemma initiate_success_wrong_mechanism :
  initialize_challenge
    (mock_engine (SASL_OK, [x01; x02], Some "PLAIN") (fun _ => (SASL_OK, [])))
    cyrus_codec (alice, 0%nat)
  = (Raise (UnexpectedMechanism "PLAIN"), (set_context alice 0%nat, 1%nat))
  /\ SASL_OK <> SASL_CONTINUE.
Proof. split; [reflexivity | discriminate]. Qed.

(** ** The bound on what an encode reports *)

(** C3, as amended.  An encode that the codec reports as failed (a negative
    result code) raises the libsasl error with that code, in
    [initialize_challenge] and in [evaluate_challenge] alike, whatever
    length the codec stored.  An encode in [initialize_challenge] that the
    codec reports as done with a length of 4096 or more raises the overflow
    error carrying that length and the capacity.  In none of these cases is
    a token returned.  ([encode_first_payload] and [encode_next_payload]
    are the last statements of the two methods:
    [initialize_challenge_to_encode], [evaluate_challenge_to_encode].) *)
Theorem encode_failure_and_overflow {conn W}
    (E : sasl_engine conn W) (C : sasl_codec) (raw : bytes)
    (s : st (conn := conn) (W := W))
    (result : Z) (buf : bytes) (outlen : option Z) :
  sasl_encode64 C raw (sizeof_payload - 1) = (result, buf, outlen) ->
  (result < 0 ->
   encode_first_payload E C raw s
   = (Raise (SaslError "sasl_encode64 failed to encode the payload"
               result (sasl_errstring E result)), s)
   /\ encode_next_payload E C raw s
      = (Raise (SaslError "sasl_encode64 failed to encode the payload"
                  result (sasl_errstring E result)), s))
  /\ (0 <= result ->
      forall written, outlen = Some written -> sizeof_payload <= written ->
      encode_first_payload E C raw s
      = (Raise (EncodeOverflow written sizeof_payload), s)).
Proof.
  intros Henc. unfold encode_first_payload, encode_next_payload.
  rewrite Henc.
  cbv beta iota delta [bind when deref ret raise raise_gssapi_error].
  split.
  - intros Hneg. rewrite (is_sasl_failure_neg _ Hneg). split; reflexivity.
  - intros Hpos written -> Hover.
    rewrite (is_sasl_failure_nonneg _ Hpos).
    destruct (Z.leb_spec sizeof_payload written); [reflexivity | lia].
Qed.

(** The library's codec turning down 3072 bytes, and an encoder that
    claims a full buffer. *)
Lemma encode_failure_and_overflow_runs :
  (encode_first_payload (mock_engine (SASL_FAIL, [], None) (fun _ => (0, [])))
     cyrus_codec (repeat x00 3072) (alice, 0%nat)
   = (Raise (SaslError "sasl_encode64 failed to encode the payload"
               (-3) "overflowed buffer"), (alice, 0%nat))
   /\ encode_next_payload (mock_engine (SASL_FAIL, [], None) (fun _ => (0, [])))
        cyrus_codec (repeat x00 3072) (alice, 0%nat)
      = (Raise (SaslError "sasl_encode64 failed to encode the payload"
                  (-3) "overflowed buffer"), (alice, 0%nat)))
  /\ encode_first_payload (mock_engine (SASL_FAIL, [], None) (fun _ => (0, [])))
       overrunning_codec [x03; x04] (alice, 0%nat)
     = (Raise (EncodeOverflow 4096 4096), (alice, 0%nat)).
Proof.
  split.
  - refine (proj1 (encode_failure_and_overflow
             (mock_engine (SASL_FAIL, [], None) (fun _ => (0, [])))
             cyrus_codec (repeat x00 3072) (alice, 0%nat)
             SASL_BUFOVER [] (Some 4096) _) _).
    + vm_compute. reflexivity.
    + unfold SASL_BUFOVER. lia.
  - refine (proj2 (encode_failure_and_overflow
             (mock_engine (SASL_FAIL, [], None) (fun _ => (0, [])))
             overrunning_codec [x03; x04] (alice, 0%nat)
             SASL_OK (repeat "A"%byte 4096) (Some 4096) _) _ 4096 _ _).
    + reflexivity.
    + unfold SASL_OK. lia.
    + reflexivity.
    + unfold sizeof_payload. lia.
Defined.

(** C3 as stated fails twice over.  In [initialize_challenge], when the
    engine's first token has 3072 bytes the library's codec reports 4096
    bytes, as many as the buffer holds, together with SASL_BUFOVER: the
    error raised is the libsasl one, not the overflow one.  In
    [evaluate_challenge], an encoder that reports success and 4096 bytes
    gets its 4096 bytes returned as the token. *)
Lemma encode_overflow_not_raised :
  (snd (Cyrus.sasl_encode64 (repeat x00 3072) (sizeof_payload - 1)) = Some 4096
   /\ fst (initialize_challenge
             (mock_engine (SASL_CONTINUE, repeat x00 3072, Some "GSSAPI")
                          (fun _ => (SASL_OK, [])))
             cyrus_codec (alice, 0%nat))
      = Raise (SaslError "sasl_encode64 failed to encode the payload"
                 (-3) "overflowed buffer"))
  /\ (snd (sasl_encode64 overrunning_codec [x03; x04] (sizeof_payload - 1))
      = Some 4096
      /\ fst (evaluate_challenge
                (mock_engine (SASL_CONTINUE, [x01; x02], Some "GSSAPI")
                             (fun _ => (SASL_OK, [x03; x04])))
                overrunning_codec (list_byte_of_string "AQI=")
                (set_context alice 0%nat, 1%nat))
         = Return (repeat "A"%byte 4096)).
Proof.
  split; split; vm_compute; reflexivity.
Qed.

(** ** Round trip *)

(** C4, as amended.  For every byte sequence of at most 3069 bytes, the
    encode of [initialize_challenge] and the encode of [evaluate_challenge]
    return the same text, and the decode of [evaluate_challenge] applied to
    that text returns the bytes. *)
Theorem decode_encode_round_trip {conn W}
    (E : sasl_engine conn W) (raw : bytes)
    (s : st (conn := conn) (W := W)) :
  Z.of_nat (List.length raw) <= 3069 ->
  exists text,
    encode_first_payload E cyrus_codec raw s = (Return text, s)
    /\ encode_next_payload E cyrus_codec raw s = (Return text, s)
    /\ decode_payload E cyrus_codec text s = (Return raw, s).
Proof.
  intros H. exists (Cyrus.encode64_loop raw). repeat split.
  - now apply encode_first_payload_fits.
  - now apply encode_next_payload_fits.
  - apply decode_payload_fits. lia.
Qed.

Lemma decode_encode_round_trip_run :
  exists text,
    encode_first_payload (mock_engine (SASL_FAIL, [], None) (fun _ => (0, [])))
      cyrus_codec [x01; x02] (alice, 0%nat) = (Return text, (alice, 0%nat))
    /\ encode_next_payload (mock_engine (SASL_FAIL, [], None) (fun _ => (0, [])))
         cyrus_codec [x01; x02] (alice, 0%nat) = (Return text, (alice, 0%nat))
    /\ decode_payload (mock_engine (SASL_FAIL, [], None) (fun _ => (0, [])))
         cyrus_codec text (alice, 0%nat) = (Return [x01; x02], (alice, 0%nat)).
Proof.
  apply (decode_encode_round_trip
           (mock_engine (SASL_FAIL, [], None) (fun _ => (0, [])))
           [x01; x02] (alice, 0%nat)).
  cbn. lia.
Defined.

(** C4 as stated fails at 3072 bytes (and already at 3070): their 4096
    digits do not fit the capacity of 4095 the codec is given, and both
    encodes raise instead of returning text to decode. *)
Lemma round_trip_fails_at_3072 :
  Z.of_nat (List.length (repeat x00 3072)) = 3072
  /\ fst (encode_first_payload
            (mock_engine (SASL_FAIL, [], None) (fun _ => (0, [])))
            cyrus_codec (repeat x00 3072) (alice, 0%nat))
     = Raise (SaslError "sasl_encode64 failed to encode the payload"
                (-3) "overflowed buffer")
  /\ fst (encode_next_payload
            (mock_engine (SASL_FAIL, [], None) (fun _ => (0, [])))
            cyrus_codec (repeat x00 3072) (alice, 0%nat))
     = Raise (SaslError "sasl_encode64 failed to encode the payload"
                (-3) "overflowed buffer")
  /\ fst (encode_first_payload
            (mock_engine (SASL_FAIL, [], None) (fun _ => (0, [])))
            cyrus_codec (repeat x00 3070) (alice, 0%nat))
     = Raise (SaslError "sasl_encode64 failed to encode the payload"
                (-3) "overflowed buffer").
Proof.
  repeat split; vm_compute; reflexivity.
Qed.

(** ** Stepping without a context *)

(** C5, as amended.  On an authenticator whose [@context] was never set --
    [initialize_challenge] never called, or never past a failing
    [sasl_client_new] -- [evaluate_challenge] raises, for every inbound
    token, the TypeError of unwrapping nil, before it decodes anything or
    calls libsasl: no token is returned and nothing changes. *)
Theorem step_without_context_raises {conn W}
    (E : sasl_engine conn W) (C : sasl_codec)
    (self : authenticator conn) (w : W) (rb_payload : bytes) :
  iv_context self = None ->
  evaluate_challenge E C rb_payload (self, w) = (Raise TypeError, (self, w)).
Proof.
  intros Hctx. unfold evaluate_challenge, mongo_sasl_context.
  cbv beta iota delta [bind rb_self fst snd].
  rewrite Hctx. reflexivity.
Qed.

Lemma step_without_context_raises_run :
  evaluate_challenge
    (mock_engine (SASL_CONTINUE, [x01; x02], Some "GSSAPI")
                 (fun _ => (SASL_OK, [x03; x04])))
    cyrus_codec (list_byte_of_string "AQI=") (alice, 0%nat)
  = (Raise TypeError, (alice, 0%nat)).
Proof.
  apply (step_without_context_raises
           (mock_engine (SASL_CONTINUE, [x01; x02], Some "GSSAPI")
                        (fun _ => (SASL_OK, [x03; x04])))
           cyrus_codec alice 0%nat (list_byte_of_string "AQI=")).
  reflexivity.
Defined.

(** C5 as stated fails after an [initialize_challenge] that did not
    succeed: the context is stored before [sasl_client_start] is called, so
    a failure of the start leaves it in place and the next
    [evaluate_challenge] goes through. *)
Lemma step_after_failed_initiate_returns :
  let E := mock_engine (SASL_FAIL, [], None) (fun _ => (SASL_OK, [x03; x04])) in
  let failed := initialize_challenge E cyrus_codec (alice, 0%nat) in
  fst failed = Raise (SaslError "sasl_client_start failed" (-1) "generic failure")
  /\ iv_context (fst (snd failed)) = Some 0%nat
  /\ fst (evaluate_challenge E cyrus_codec (list_byte_of_string "AQI=")
            (snd failed))
     = Return (list_byte_of_string "AwQ=").
Proof. cbv zeta. repeat split; vm_compute; reflexivity. Qed.

(** ** The context slot *)

(** C6, as amended.  [@context] is one slot.  [evaluate_challenge] never
    changes the receiver, its context included.  [initialize_challenge]
    changes nothing but the slot: when [sasl_client_new] answers SASL_OK
    the slot holds the connection just created, whatever it held before;
    otherwise it is as it was. *)
Theorem context_slot_updates {conn W}
    (E : sasl_engine conn W) (C : sasl_codec)
    (self : authenticator conn) (w : W) :
  (forall rb_payload,
     fst (snd (evaluate_challenge E C rb_payload (self, w))) = self)
  /\ (let '((result, c), _) :=
        sasl_client_new E (iv_service_name self) (iv_host_name self)
          (client_interact self) w in
      fst (snd (initialize_challenge E C (self, w)))
      = if result =? SASL_OK then set_context self c else self).
Proof.
  split.
  - intros rb_payload.
    unfold evaluate_challenge, mongo_sasl_context.
    cbv beta iota delta [bind rb_self fst snd].
    destruct (iv_context self) as [c|]; [|reflexivity].
    cbv beta iota delta [ret].
    pose proof (decode_payload_state E C rb_payload (self, w)) as Hs.
    destruct (decode_payload E C rb_payload (self, w)) as [[base| |] s'];
      cbn [snd] in Hs; subst s'; try reflexivity.
    cbv beta iota delta [call fst snd].
    destruct (sasl_client_step E c base w) as [[result out] w'].
    destruct (c_true (is_sasl_failure result)); cbn [when].
    + reflexivity.
    + cbv beta iota delta [ret].
      pose proof (encode_next_payload_state E C out (self, w')) as Hs.
      destruct (encode_next_payload E C out (self, w')) as [o s'].
      cbn [snd] in Hs. now subst s'.
  - destruct (sasl_client_new E (iv_service_name self) (iv_host_name self)
                (client_interact self) w) as [[result c] w1] eqn:Hnew.
    destruct (Z.eqb_spec result SASL_OK) as [->|Hne].
    + destruct (sasl_client_start E c "GSSAPI" w1) as [start w2] eqn:Hstart.
      rewrite (initialize_challenge_started E C _ _ _ _ _ _ Hnew Hstart).
      destruct start as [[r raw] m].
      cbv beta iota delta [bind when deref ret raise raise_gssapi_error
                           undefined].
      destruct (c_true (is_sasl_failure r)); [reflexivity|].
      destruct m as [mech|]; [|reflexivity].
      destruct (negb (strcmp mech "GSSAPI" =? 0)); [reflexivity|].
      destruct (negb (r =? SASL_CONTINUE)); [reflexivity|].
      now rewrite encode_first_payload_state.
    + unfold initialize_challenge.
      cbv beta iota delta [bind rb_self call fst snd].
      rewrite Hnew.
      apply Z.eqb_neq in Hne. rewrite Hne. reflexivity.
Qed.

(** C6 as stated fails on a second [initialize_challenge]: it creates a
    second connection and stores it over the first. *)
Lemma second_initiate_replaces_context :
  let E := mock_engine (SASL_CONTINUE, [x01; x02], Some "GSSAPI")
                       (fun _ => (SASL_OK, [x03; x04])) in
  let first := initialize_challenge E cyrus_codec (alice, 0%nat) in
  let second := initialize_challenge E cyrus_codec (snd first) in
  returns (fst first) = true
  /\ iv_context (fst (snd first)) = Some 0%nat
  /\ returns (fst second) = true
  /\ iv_context (fst (snd second)) = Some 1%nat.
Proof. cbv zeta. repeat split; vm_compute; reflexivity. Qed.

(** ** A token that does not decode *)

(** C7.  With a context in place, when the codec reports the decode of the
    inbound token as failed (a negative result code), [evaluate_challenge]
    raises the libsasl error with that code and [sasl_errstring] of the
    code, returns no token and leaves the receiver and the library as they
    were; and the outcome is the same whatever [sasl_client_step] would
    have done: it is not called. *)
Theorem step_decode_failure_raises {conn W}
    (E : sasl_engine conn W) (C : sasl_codec)
    (self : authenticator conn) (w : W) (c : conn) (rb_payload : bytes)
    (result : Z) :
  iv_context self = Some c ->
  fst (fst (sasl_decode64 C
              (firstn (Z.to_nat (to_unsigned
                 (to_int (Z.of_nat (List.length rb_payload))))) rb_payload)
              (sizeof_payload - 1))) = result ->
  result < 0 ->
  evaluate_challenge E C rb_payload (self, w)
  = (Raise (SaslError "sasl_decode64 failed to decode the payload"
              result (sasl_errstring E result)), (self, w))
  /\ forall step,
       evaluate_challenge (with_client_step E step) C rb_payload (self, w)
       = evaluate_challenge E C rb_payload (self, w).
Proof.
  intros Hctx Hdec Hneg.
  assert (Hrun : forall E' : sasl_engine conn W,
             evaluate_challenge E' C rb_payload (self, w)
             = (Raise (SaslError "sasl_decode64 failed to decode the payload"
                         result (sasl_errstring E' result)), (self, w))).
  { intros E'. unfold evaluate_challenge, mongo_sasl_context, decode_payload.
    cbv beta iota delta [bind rb_self fst snd].
    rewrite Hctx. cbv beta iota delta [ret].
    destruct (sasl_decode64 C _ (sizeof_payload - 1)) as [[r buf] outlen].
    cbn [fst] in Hdec. subst r.
    rewrite (is_sasl_failure_neg _ Hneg). reflexivity. }
  split; [apply Hrun|].
  intros step. rewrite !Hrun. reflexivity.
Qed.

Lemma step_decode_failure_raises_run :
  let E := mock_engine (SASL_CONTINUE, [x01; x02], Some "GSSAPI")
                       (fun _ => (SASL_OK, [x03; x04])) in
  evaluate_challenge E cyrus_codec (list_byte_of_string "A?I=")
    (set_context alice 0%nat, 1%nat)
  = (Raise (SaslError "sasl_decode64 failed to decode the payload"
              (-5) "bad protocol / cancel"), (set_context alice 0%nat, 1%nat))
  /\ forall step,
       evaluate_challenge (with_client_step E step) cyrus_codec
         (list_byte_of_string "A?I=") (set_context alice 0%nat, 1%nat)
       = evaluate_challenge E cyrus_codec
           (list_byte_of_string "A?I=") (set_context alice 0%nat, 1%nat).
Proof.
  cbv zeta.
  apply (step_decode_failure_raises
           (mock_engine (SASL_CONTINUE, [x01; x02], Some "GSSAPI")
                        (fun _ => (SASL_OK, [x03; x04])))
           cyrus_codec (set_context alice 0%nat) 1%nat 0%nat
           (list_byte_of_string "A?I=") SASL_BADPROT).
  - reflexivity.
  - vm_compute. reflexivity.
  - unfold SASL_BADPROT. lia.
Defined.

(** ** The end-to-end scenario *)

(** C8.  Over the library's codec: when [sasl_client_start] selects
    "GSSAPI", answers SASL_CONTINUE and produces the bytes 01 02,
    [initialize_challenge] returns the text "AQI="; and when
    [sasl_client_step], given the bytes 01 02, does not fail and produces
    the bytes 03 04, [evaluate_challenge] on "AQI=" returns the text
    "AwQ=". *)
Theorem end_to_end_scenario {conn W}
    (E : sasl_engine conn W) (self : authenticator conn)
    (w w1 w2 w3 : W) (c : conn) (result : Z) :
  sasl_client_new E (iv_service_name self) (iv_host_name self)
    (client_interact self) w = ((SASL_OK, c), w1) ->
  sasl_client_start E c "GSSAPI" w1
    = ((SASL_CONTINUE, [x01; x02], Some "GSSAPI"), w2) ->
  sasl_client_step E c [x01; x02] w2 = ((result, [x03; x04]), w3) ->
  0 <= result ->
  initialize_challenge E cyrus_codec (self, w)
  = (Return (list_byte_of_string "AQI="), (set_context self c, w2))
  /\ evaluate_challenge E cyrus_codec (list_byte_of_string "AQI=")
       (set_context self c, w2)
     = (Return (list_byte_of_string "AwQ="), (set_context self c, w3)).
Proof.
  intros Hnew Hstart Hstep Hres. split.
  - rewrite (initialize_challenge_to_encode E cyrus_codec _ _ _ _ _ _
               Hnew Hstart).
    reflexivity.
  - rewrite (evaluate_challenge_to_encode E cyrus_codec
               (set_context self c) w2 c (list_byte_of_string "AQI=")
               [x01; x02] result [x03; x04] w3);
      [reflexivity | reflexivity | reflexivity | exact Hstep | exact Hres].
Qed.

Lemma end_to_end_scenario_run :
  let E := mock_engine (SASL_CONTINUE, [x01; x02], Some "GSSAPI")
                       (fun serverin => (SASL_OK, map (fun b => Cyrus.to_char (Cyrus.uchar b + 2)) serverin)) in
  initialize_challenge E cyrus_codec
    (new_authenticator "alice" "db.example.com" "mongodb" false, 0%nat)
  = (Return (list_byte_of_string "AQI="), (set_context alice 0%nat, 1%nat))
  /\ evaluate_challenge E cyrus_codec (list_byte_of_string "AQI=")
       (set_context alice 0%nat, 1%nat)
     = (Return (list_byte_of_string "AwQ="), (set_context alice 0%nat, 1%nat)).
Proof.
  cbv zeta.
  apply (end_to_end_scenario
           (mock_engine (SASL_CONTINUE, [x01; x02], Some "GSSAPI")
              (fun serverin =>
                 (SASL_OK, map (fun b => Cyrus.to_char (Cyrus.uchar b + 2))
                               serverin)))
           alice 0%nat 1%nat 1%nat 1%nat 0%nat SASL_OK).
  - reflexivity.
  - reflexivity.
  - reflexivity.
  - unfold SASL_OK. lia.
Defined.

(** ** The credential callback *)

(** C9, as amended.  For a user name shorter than 2^32 bytes: asked for
    SASL_CB_AUTHNAME or SASL_CB_USER, [sasl_interact] answers SASL_OK,
    stores the receiver's [@user_name] and, where a length pointer is
    supplied, its exact length; asked for anything else it answers
    SASL_FAIL and stores nothing; and in every case the receiver is handed
    back as it was. *)
Theorem sasl_interact_answers {conn}
    (self : authenticator conn) (id : Z) (len : bool) :
  Z.of_nat (String.length (iv_user_name self)) < 2 ^ 32 ->
  snd (sasl_interact self id len) = self
  /\ (id = SASL_CB_AUTHNAME \/ id = SASL_CB_USER ->
      fst (sasl_interact self id len)
      = (SASL_OK, Some (iv_user_name self),
         if len then Some (Z.of_nat (String.length (iv_user_name self)))
         else None))
  /\ (id <> SASL_CB_AUTHNAME -> id <> SASL_CB_USER ->
      fst (sasl_interact self id len) = (SASL_FAIL, None, None)).
Proof.
  intros Hlen. change (2 ^ 32) with 4294967296 in Hlen.
  unfold sasl_interact.
  destruct (Z.eqb_spec id SASL_CB_AUTHNAME) as [Ha|Ha];
    destruct (Z.eqb_spec id SASL_CB_USER) as [Hu|Hu]; cbn [orb fst snd];
    (split; [reflexivity|]); split; try tauto; intros _;
    rewrite to_unsigned_to_int_small by lia; reflexivity.
Qed.

Lemma sasl_interact_answers_run :
  snd (sasl_interact alice SASL_CB_USER true) = alice
  /\ fst (sasl_interact alice SASL_CB_USER true) = (SASL_OK, Some "alice", Some 5)
  /\ fst (sasl_interact alice SASL_CB_AUTHNAME false)
     = (SASL_OK, Some "alice", None)
  /\ fst (sasl_interact alice 0x4004 true) = (SASL_FAIL, None, None).
Proof.
  assert (Hlen : Z.of_nat (String.length (iv_user_name alice)) < 2 ^ 32)
    by (vm_compute; reflexivity).
  split; [exact (proj1 (sasl_interact_answers alice SASL_CB_USER true Hlen))|].
  split; [apply (proj1 (proj2 (sasl_interact_answers alice SASL_CB_USER true Hlen)));
          right; reflexivity|].
  split; [apply (proj1 (proj2 (sasl_interact_answers alice SASL_CB_AUTHNAME false Hlen)));
          left; reflexivity|].
  apply (proj2 (proj2 (sasl_interact_answers alice 0x4004 true Hlen)));
    discriminate.
Defined.

(** C9 as stated fails on a user name of 2^32 bytes: the length goes
    through [(int)] into an [unsigned], and what is stored in [*len] is 0,
    not the length. *)
Lemma sasl_interact_length_wraps :
  Z.of_nat (String.length (iv_user_name long_named)) = 2 ^ 32
  /\ fst (sasl_interact long_named SASL_CB_USER true)
     = (SASL_OK, Some (iv_user_name long_named), Some 0)
  /\ fst (sasl_interact long_named SASL_CB_AUTHNAME true)
     = (SASL_OK, Some (iv_user_name long_named), Some 0).
Proof.
  assert (Hlen : Z.of_nat (String.length (iv_user_name long_named))
                 = 4294967296).
  { change (iv_user_name long_named)
      with (string_of_copies "a" (Z.to_nat 4294967296)).
    rewrite string_of_copies_length. apply Z2Nat.id. lia. }
  split; [exact Hlen|].
  unfold sasl_interact.
  change (SASL_CB_USER =? SASL_CB_AUTHNAME) with false.
  change (SASL_CB_USER =? SASL_CB_USER) with true.
  change (SASL_CB_AUTHNAME =? SASL_CB_AUTHNAME) with true.
  cbn [orb fst].
  rewrite to_unsigned_to_int, Hlen.
  split; reflexivity.
Qed.

(** ** The capacity of the decode *)

(** C10, as amended.  For every byte sequence of at most 4094 bytes, the
    decode of [evaluate_challenge] applied to its base64 text succeeds and
    yields the bytes; with a context in place these bytes are what
    [sasl_client_step] is called with. *)
Theorem step_decode_capacity {conn W}
    (E : sasl_engine conn W) (self : authenticator conn) (w : W) (c : conn)
    (raw : bytes) :
  Z.of_nat (List.length raw) <= 4094 ->
  iv_context self = Some c ->
  decode_payload E cyrus_codec (Cyrus.encode64_loop raw) (self, w)
  = (Return raw, (self, w))
  /\ evaluate_challenge E cyrus_codec (Cyrus.encode64_loop raw) (self, w)
     = (' (result, out) <- call (sasl_client_step E c raw) ;;
        when (c_true (is_sasl_failure result))
          (raise_gssapi_error E "sasl_client_step failed" result) ;;
        encode_next_payload E cyrus_codec out) (self, w).
Proof.
  intros Hlen Hctx.
  pose proof (decode_payload_fits E raw (self, w) Hlen) as Hdec.
  split; [exact Hdec|].
  unfold evaluate_challenge, mongo_sasl_context.
  unfold bind at 1. unfold bind at 1. unfold rb_self at 1. cbn [fst snd].
  rewrite Hctx. unfold ret at 1.
  unfold bind at 1. rewrite Hdec. reflexivity.
Qed.

Lemma step_decode_capacity_run :
  let E := mock_engine (SASL_CONTINUE, [x01; x02], Some "GSSAPI")
                       (fun _ => (SASL_OK, [x03; x04])) in
  decode_payload E cyrus_codec (Cyrus.encode64_loop (repeat xff 4094))
    (set_context alice 0%nat, 1%nat)
  = (Return (repeat xff 4094), (set_context alice 0%nat, 1%nat)).
Proof.
  cbv zeta.
  refine (proj1 (step_decode_capacity
           (mock_engine (SASL_CONTINUE, [x01; x02], Some "GSSAPI")
                        (fun _ => (SASL_OK, [x03; x04])))
           (set_context alice 0%nat) 1%nat 0%nat (repeat xff 4094) _ _)).
  - rewrite repeat_length. vm_compute. discriminate.
  - reflexivity.
Defined.

(** C10 as stated fails from 4095 decoded bytes on: the decoder is given a
    capacity of 4095 and gives up when its count reaches it, so the text of
    4096 bytes, and of 4095, is turned down with SASL_BUFOVER. *)
Lemma step_decode_rejects_4096 :
  let E := mock_engine (SASL_CONTINUE, [x01; x02], Some "GSSAPI")
                       (fun _ => (SASL_OK, [x03; x04])) in
  Z.of_nat (List.length (repeat x00 4096)) = 4096
  /\ fst (evaluate_challenge E cyrus_codec
            (Cyrus.encode64_loop (repeat x00 4096))
            (set_context alice 0%nat, 1%nat))
     = Raise (SaslError "sasl_decode64 failed to decode the payload"
                (-3) "overflowed buffer")
  /\ fst (evaluate_challenge E cyrus_codec
            (Cyrus.encode64_loop (repeat x00 4095))
            (set_context alice 0%nat, 1%nat))
     = Raise (SaslError "sasl_decode64 failed to decode the payload"
                (-3) "overflowed buffer").
Proof. cbv zeta. repeat split; vm_compute; reflexivity. Qed.

(** * Further properties of the extension *)

(** ** Helpers *)

Lemma is_sasl_failure_true_inv result :
  c_true (is_sasl_failure result) = true -> result < 0.
Proof.
  unfold is_sasl_failure. destruct (Z.ltb_spec result 0); [auto | discriminate].
Qed.

Lemma is_sasl_failure_false_inv result :
  c_true (is_sasl_failure result) = false -> 0 <= result.
Proof.
  unfold is_sasl_failure. destruct (Z.ltb_spec result 0); [discriminate | auto].
Qed.

(** [evaluate_challenge] once a context is in place. *)
Lemma evaluate_challenge_with_context {conn W} (E : sasl_engine conn W)
    (C : sasl_codec) self w c payload :
  iv_context self = Some c ->
  evaluate_challenge E C payload (self, w)
  = (base_payload <- decode_payload E C payload ;;
     ' (result, out) <- call (sasl_client_step E c base_payload) ;;
     when (c_true (is_sasl_failure result))
       (raise_gssapi_error E "sasl_client_step failed" result) ;;
     encode_next_payload E C out) (self, w).
Proof.
  intros Hctx. unfold evaluate_challenge, mongo_sasl_context.
  unfold bind at 1. unfold bind at 1. unfold rb_self at 1. cbn [fst snd].
  rewrite Hctx. reflexivity.
Qed.

(** [evaluate_challenge] with a context, by the outcome of the decode and
    the sign of the step's result. *)
Lemma evaluate_challenge_cases {conn W} (E : sasl_engine conn W)
    (C : sasl_codec) self w c payload :
  iv_context self = Some c ->
  evaluate_challenge E C payload (self, w)
  = match fst (decode_payload E C payload (self, w)) with
    | Return base =>
        let '((result, out), w') := sasl_client_step E c base w in
        if c_true (is_sasl_failure result)
        then (Raise (SaslError "sasl_client_step failed" result
                       (sasl_errstring E result)), (self, w'))
        else encode_next_payload E C out (self, w')
    | Raise e => (Raise e, (self, w))
    | Undefined => (Undefined, (self, w))
    end.
Proof.
  intros Hctx.
  rewrite (evaluate_challenge_with_context E C _ _ _ _ Hctx).
  pose proof (decode_payload_state E C payload (self, w)) as Hs.
  unfold bind at 1.
  destruct (decode_payload E C payload (self, w)) as [o s'].
  cbn [fst snd] in Hs |- *. subst s'.
  destruct o as [base| |]; try reflexivity.
  cbv beta iota delta [bind call fst snd].
  destruct (sasl_client_step E c base w) as [[result out] w'].
  destruct (c_true (is_sasl_failure result)); reflexivity.
Qed.

(** [evaluate_challenge] when none is. *)
Lemma evaluate_challenge_without_context {conn W} (E : sasl_engine conn W)
    (C : sasl_codec) self w payload :
  iv_context self = None ->
  evaluate_challenge E C payload (self, w) = (Raise TypeError, (self, w)).
Proof.
  intros Hctx. unfold evaluate_challenge, mongo_sasl_context.
  cbv beta iota delta [bind rb_self fst snd].
  rewrite Hctx. reflexivity.
Qed.

(** ** Failure to create the connection *)

(** X1.  When [sasl_client_new] answers anything but SASL_OK -- a positive
    code included -- [initialize_challenge] raises the libsasl error
    "sasl_client_new failed" with that code, stores no context, and goes no
    further: the outcome is the same whatever [sasl_client_start] would
    have done. *)
Theorem initiate_new_failure {conn W}
    (E : sasl_engine conn W) (C : sasl_codec)
    (self : authenticator conn) (w w1 : W) (c : conn) (result : Z) :
  sasl_client_new E (iv_service_name self) (iv_host_name self)
    (client_interact self) w = ((result, c), w1) ->
  result <> SASL_OK ->
  initialize_challenge E C (self, w)
  = (Raise (SaslError "sasl_client_new failed" result
              (sasl_errstring E result)), (self, w1))
  /\ forall start,
       initialize_challenge (with_client_start E start) C (self, w)
       = initialize_challenge E C (self, w).
Proof.
  intros Hnew Hne.
  assert (Hrun : forall E' : sasl_engine conn W,
            sasl_client_new E' = sasl_client_new E ->
            sasl_errstring E' = sasl_errstring E ->
            initialize_challenge E' C (self, w)
            = (Raise (SaslError "sasl_client_new failed" result
                        (sasl_errstring E result)), (self, w1))).
  { intros E' Hn He. unfold initialize_challenge.
    cbv beta iota delta [bind rb_self call fst snd raise_gssapi_error raise].
    rewrite Hn, He, Hnew. apply Z.eqb_neq in Hne. rewrite Hne.
    destruct self. reflexivity. }
  split.
  - apply Hrun; reflexivity.
  - intros start. rewrite !Hrun; reflexivity.
Qed.

Lemma initiate_new_failure_run :
  initialize_challenge (refusing_engine SASL_CONTINUE) cyrus_codec (alice, 0%nat)
  = (Raise (SaslError "sasl_client_new failed" 1
              "another step is needed in authentication"), (alice, 0%nat))
  /\ forall start,
       initialize_challenge
         (with_client_start (refusing_engine SASL_CONTINUE) start)
         cyrus_codec (alice, 0%nat)
       = initialize_challenge (refusing_engine SASL_CONTINUE)
           cyrus_codec (alice, 0%nat).
Proof.
  apply (initiate_new_failure (refusing_engine SASL_CONTINUE) cyrus_codec
           alice 0%nat 0%nat 0%nat SASL_CONTINUE).
  - reflexivity.
  - discriminate.
Defined.

(** ** What each method calls *)

(** X2.  [initialize_challenge] never calls [sasl_client_step], and
    [evaluate_challenge] never calls [sasl_client_new] or
    [sasl_client_start]: replacing the entry point changes nothing. *)
Theorem methods_engine_footprint {conn W}
    (E : sasl_engine conn W) (C : sasl_codec)
    (s : st (conn := conn) (W := W)) :
  (forall step,
     initialize_challenge (with_client_step E step) C s
     = initialize_challenge E C s)
  /\ (forall new start rb_payload,
        evaluate_challenge (with_client_start (with_client_new E new) start)
          C rb_payload s
        = evaluate_challenge E C rb_payload s).
Proof.
  split; intros; reflexivity.
Qed.

(** ** A failing step *)

(** X3.  With a context in place and a token that decodes, when
    [sasl_client_step] answers a negative code [evaluate_challenge] raises
    the libsasl error "sasl_client_step failed" with that code and
    [sasl_errstring] of it; the receiver is as it was and the library is in
    the state the step left. *)
Theorem step_engine_failure {conn W}
    (E : sasl_engine conn W) (C : sasl_codec)
    (self : authenticator conn) (w w' : W) (c : conn)
    (rb_payload base out : bytes) (result : Z) :
  iv_context self = Some c ->
  fst (decode_payload E C rb_payload (self, w)) = Return base ->
  sasl_client_step E c base w = ((result, out), w') ->
  result < 0 ->
  evaluate_challenge E C rb_payload (self, w)
  = (Raise (SaslError "sasl_client_step failed" result
              (sasl_errstring E result)), (self, w')).
Proof.
  intros Hctx Hdec Hstep Hneg.
  rewrite (evaluate_challenge_cases E C _ _ _ _ Hctx), Hdec, Hstep.
  now rewrite (is_sasl_failure_neg _ Hneg).
Qed.

Lemma step_engine_failure_run :
  evaluate_challenge
    (mock_engine (SASL_CONTINUE, [x01; x02], Some "GSSAPI")
                 (fun _ => (SASL_FAIL, [])))
    cyrus_codec (list_byte_of_string "AQI=") (set_context alice 0%nat, 1%nat)
  = (Raise (SaslError "sasl_client_step failed" (-1) "generic failure"),
     (set_context alice 0%nat, 1%nat)).
Proof.
  apply (step_engine_failure
           (mock_engine (SASL_CONTINUE, [x01; x02], Some "GSSAPI")
                        (fun _ => (SASL_FAIL, [])))
           cyrus_codec (set_context alice 0%nat) 1%nat 1%nat 0%nat
           (list_byte_of_string "AQI=") [x01; x02] [] SASL_FAIL).
  - reflexivity.
  - vm_compute. reflexivity.
  - reflexivity.
  - unfold SASL_FAIL. lia.
Defined.

(** ** The result code of a step *)

(** X4.  [evaluate_challenge] looks at the sign of the step's result code
    and at nothing else of it: SASL_OK, SASL_CONTINUE and every other code
    that is not negative lead to the same outcome and the same state. *)
Theorem step_result_sign_only {conn W}
    (E : sasl_engine conn W) (C : sasl_codec)
    (s : st (conn := conn) (W := W)) (rb_payload : bytes) :
  evaluate_challenge (with_client_step E (sign_only_step E)) C rb_payload s
  = evaluate_challenge E C rb_payload s.
Proof.
  destruct s as [self w].
  destruct (iv_context self) as [c|] eqn:Hctx.
  - rewrite !(evaluate_challenge_cases _ C _ _ _ _ Hctx).
    change (decode_payload (with_client_step E (sign_only_step E)) C)
      with (decode_payload E C).
    destruct (fst (decode_payload E C rb_payload (self, w))) as [base| |];
      try reflexivity.
    cbn [with_client_step sasl_client_step sasl_errstring].
    unfold sign_only_step.
    destruct (sasl_client_step E c base w) as [[result out] w'].
    unfold is_sasl_failure.
    destruct (Z.ltb_spec result 0) as [Hneg|Hpos].
    + destruct (Z.ltb_spec result 0); [reflexivity | lia].
    + reflexivity.
  - rewrite !evaluate_challenge_without_context by exact Hctx. reflexivity.
Qed.

(** ** The two methods by cases *)

Lemma buffer_take_length buf len t :
  buffer_take buf len = Some t -> Z.of_nat (List.length t) = len.
Proof.
  unfold buffer_take.
  destruct (Z.leb_spec 0 len); [|discriminate].
  destruct (Z.leb_spec len (Z.of_nat (List.length buf))); [|discriminate].
  cbn [andb]. intros Ht. injection Ht as <-.
  rewrite firstn_length_le by lia. lia.
Qed.

Lemma encode_first_payload_cases {conn W} (E : sasl_engine conn W)
    (C : sasl_codec) raw (s : st (conn := conn) (W := W)) :
  encode_first_payload E C raw s
  = let '(result, buf, outlen) := sasl_encode64 C raw (sizeof_payload - 1) in
    if c_true (is_sasl_failure result)
    then (Raise (SaslError "sasl_encode64 failed to encode the payload"
                   result (sasl_errstring E result)), s)
    else match outlen with
         | None => (Undefined, s)
         | Some n =>
             if sizeof_payload <=? n
             then (Raise (EncodeOverflow n sizeof_payload), s)
             else match buffer_take buf n with
                  | Some t => (Return t, s)
                  | None => (Undefined, s)
                  end
         end.
Proof.
  unfold encode_first_payload, rb_str_new.
  destruct (sasl_encode64 C raw (sizeof_payload - 1)) as [[result buf] outlen].
  cbv beta iota delta [bind when deref ret raise raise_gssapi_error undefined].
  destruct (c_true (is_sasl_failure result)); [reflexivity|].
  destruct outlen as [n|]; [|reflexivity].
  destruct (sizeof_payload <=? n); [reflexivity|].
  destruct (buffer_take buf n); reflexivity.
Qed.

Lemma encode_next_payload_cases {conn W} (E : sasl_engine conn W)
    (C : sasl_codec) out (s : st (conn := conn) (W := W)) :
  encode_next_payload E C out s
  = let '(result, buf, outlen) := sasl_encode64 C out (sizeof_payload - 1) in
    if c_true (is_sasl_failure result)
    then (Raise (SaslError "sasl_encode64 failed to encode the payload"
                   result (sasl_errstring E result)), s)
    else match outlen with
         | None => (Undefined, s)
         | Some n =>
             match buffer_take buf n with
             | Some t => (Return t, s)
             | None => (Undefined, s)
             end
         end.
Proof.
  unfold encode_next_payload, rb_str_new.
  destruct (sasl_encode64 C out (sizeof_payload - 1)) as [[result buf] outlen].
  cbv beta iota delta [bind when deref ret raise raise_gssapi_error undefined].
  destruct (c_true (is_sasl_failure result)); [reflexivity|].
  destruct outlen as [n|]; [|reflexivity].
  destruct (buffer_take buf n); reflexivity.
Qed.

Lemma decode_payload_cases {conn W} (E : sasl_engine conn W)
    (C : sasl_codec) payload (s : st (conn := conn) (W := W)) :
  decode_payload E C payload s
  = let '(result, buf, outlen) :=
      sasl_decode64 C
        (firstn (Z.to_nat (to_unsigned (to_int (Z.of_nat (List.length payload)))))
                payload)
        (sizeof_payload - 1) in
    if c_true (is_sasl_failure result)
    then (Raise (SaslError "sasl_decode64 failed to decode the payload"
                   result (sasl_errstring E result)), s)
    else match outlen with
         | None => (Undefined, s)
         | Some n =>
             match buffer_take buf n with
             | Some t => (Return t, s)
             | None => (Undefined, s)
             end
         end.
Proof.
  unfold decode_payload.
  destruct (sasl_decode64 C _ (sizeof_payload - 1)) as [[result buf] outlen].
  cbv beta iota delta [bind when deref ret raise raise_gssapi_error undefined].
  destruct (c_true (is_sasl_failure result)); [reflexivity|].
  destruct outlen as [n|]; [|reflexivity].
  destruct (buffer_take buf n); reflexivity.
Qed.

Lemma initialize_challenge_cases {conn W} (E : sasl_engine conn W)
    (C : sasl_codec) (self : authenticator conn) (w : W) :
  initialize_challenge E C (self, w)
  = let '((result, c), w1) :=
      sasl_client_new E (iv_service_name self) (iv_host_name self)
        (client_interact self) w in
    if negb (result =? SASL_OK)
    then (Raise (SaslError "sasl_client_new failed" result
                   (sasl_errstring E result)), (self, w1))
    else
      let '((result, raw_payload, mechanism_selected), w2) :=
        sasl_client_start E c "GSSAPI" w1 in
      if c_true (is_sasl_failure result)
      then (Raise (SaslError "sasl_client_start failed" result
                     (sasl_errstring E result)), (set_context self c, w2))
      else match mechanism_selected with
           | None => (Undefined, (set_context self c, w2))
           | Some mech =>
               if negb (strcmp mech "GSSAPI" =? 0)
               then (Raise (UnexpectedMechanism mech),
                     (set_context self c, w2))
               else if negb (result =? SASL_CONTINUE)
               then (Raise (SaslError
                              "sasl_client_start did not return SASL_CONTINUE"
                              result (sasl_errstring E result)),
                     (set_context self c, w2))
               else encode_first_payload E C raw_payload
                      (set_context self c, w2)
           end.
Proof.
  destruct (sasl_client_new E (iv_service_name self) (iv_host_name self)
              (client_interact self) w) as [[result c] w1] eqn:Hnew.
  destruct (Z.eqb_spec result SASL_OK) as [->|Hne]; cbn [negb].
  - destruct (sasl_client_start E c "GSSAPI" w1) as [start w2] eqn:Hstart.
    rewrite (initialize_challenge_started E C _ _ _ _ _ _ Hnew Hstart).
    destruct start as [[r raw] m].
    cbv beta iota delta [bind when deref ret raise raise_gssapi_error
                         undefined].
    destruct (c_true (is_sasl_failure r)); [reflexivity|].
    destruct m as [mech|]; [|reflexivity].
    destruct (negb (strcmp mech "GSSAPI" =? 0)); [reflexivity|].
    destruct (negb (r =? SASL_CONTINUE)); reflexivity.
  - unfold initialize_challenge.
    cbv beta iota delta [bind rb_self call fst snd raise_gssapi_error raise].
    rewrite Hnew. apply Z.eqb_neq in Hne. rewrite Hne.
    destruct self. reflexivity.
Qed.

(** ** What a returned token tells *)

(** X6.  Whatever the engine and the codec do, a token returned by
    [initialize_challenge] is shorter than the 4096 bytes of the buffer it
    was encoded into. *)
Theorem initiate_token_bound {conn W}
    (E : sasl_engine conn W) (C : sasl_codec)
    (s s' : st (conn := conn) (W := W)) (token : bytes) :
  initialize_challenge E C s = (Return token, s') ->
  Z.of_nat (List.length token) < sizeof_payload.
Proof.
  destruct s as [self w]. rewrite initialize_challenge_cases.
  destruct (sasl_client_new E _ _ _ w) as [[result c] w1].
  destruct (negb (result =? SASL_OK)); [discriminate|].
  destruct (sasl_client_start E c "GSSAPI" w1) as [[[r raw] m] w2].
  destruct (c_true (is_sasl_failure r)); [discriminate|].
  destruct m as [mech|]; [|discriminate].
  destruct (negb (strcmp mech "GSSAPI" =? 0)); [discriminate|].
  destruct (negb (r =? SASL_CONTINUE)); [discriminate|].
  rewrite encode_first_payload_cases.
  destruct (sasl_encode64 C raw (sizeof_payload - 1)) as [[r3 buf] outlen].
  destruct (c_true (is_sasl_failure r3)); [discriminate|].
  destruct outlen as [n|]; [|discriminate].
  destruct (Z.leb_spec sizeof_payload n); [discriminate|].
  destruct (buffer_take buf n) as [t|] eqn:Ht; [|discriminate].
  intros Heq. injection Heq as <- _.
  rewrite (buffer_take_length _ _ _ Ht). assumption.
Qed.

Lemma initiate_token_bound_run :
  Z.of_nat (List.length (list_byte_of_string "AQI=")) < sizeof_payload.
Proof.
  apply (initiate_token_bound
           (mock_engine (SASL_CONTINUE, [x01; x02], Some "GSSAPI")
                        (fun _ => (SASL_OK, [x03; x04])))
           cyrus_codec (alice, 0%nat) (set_context alice 0%nat, 1%nat)
           (list_byte_of_string "AQI=")).
  reflexivity.
Defined.

(** X7.  [initialize_challenge] returns a token only when
    [sasl_client_new] answered SASL_OK and [sasl_client_start] answered
    SASL_CONTINUE with a mechanism name that [strcmp] finds equal to
    "GSSAPI" (for a C string: the name "GSSAPI" itself); the receiver then
    holds the connection just created and the library is in the state the
    start left. *)
Theorem initiate_return_inversion {conn W}
    (E : sasl_engine conn W) (C : sasl_codec)
    (self : authenticator conn) (w : W)
    (s' : st (conn := conn) (W := W)) (token : bytes) :
  initialize_challenge E C (self, w) = (Return token, s') ->
  exists c w1 raw_payload mech w2,
    sasl_client_new E (iv_service_name self) (iv_host_name self)
      (client_interact self) w = ((SASL_OK, c), w1)
    /\ sasl_client_start E c "GSSAPI" w1
       = ((SASL_CONTINUE, raw_payload, Some mech), w2)
    /\ strcmp mech "GSSAPI" = 0
    /\ (c_string mech = true -> mech = "GSSAPI")
    /\ s' = (set_context self c, w2).
Proof.
  rewrite initialize_challenge_cases.
  destruct (sasl_client_new E _ _ _ w) as [[result c] w1] eqn:Hnew.
  destruct (Z.eqb_spec result SASL_OK) as [->|]; [|discriminate].
  cbn [negb].
  destruct (sasl_client_start E c "GSSAPI" w1) as [[[r raw] m] w2] eqn:Hstart.
  destruct (c_true (is_sasl_failure r)); [discriminate|].
  destruct m as [mech|]; [|discriminate].
  destruct (Z.eqb_spec (strcmp mech "GSSAPI") 0) as [Hcmp|]; [|discriminate].
  destruct (Z.eqb_spec r SASL_CONTINUE) as [->|]; [|discriminate].
  cbn [negb]. intros Hrun.
  pose proof (encode_first_payload_state E C raw (set_context self c, w2))
    as Hs.
  rewrite Hrun in Hs. cbn [snd] in Hs.
  exists c, w1, raw, mech, w2.
  split; [first [exact Hnew | reflexivity]|].
  split; [first [exact Hstart | reflexivity]|]. split; [exact Hcmp|].
  split; [|exact Hs].
  intros Hc. apply strcmp_zero_eq; auto.
Qed.

Lemma initiate_return_inversion_run :
  let E := mock_engine (SASL_CONTINUE, [x01; x02], Some "GSSAPI")
                       (fun _ => (SASL_OK, [x03; x04])) in
  exists c w1 raw_payload mech w2,
    sasl_client_new E "mongodb" "db.example.com" (client_interact alice) 0%nat
      = ((SASL_OK, c), w1)
    /\ sasl_client_start E c "GSSAPI" w1
       = ((SASL_CONTINUE, raw_payload, Some mech), w2)
    /\ strcmp mech "GSSAPI" = 0
    /\ (c_string mech = true -> mech = "GSSAPI")
    /\ (set_context alice 0%nat, 1%nat) = (set_context alice c, w2).
Proof.
  cbv zeta.
  apply (initiate_return_inversion
           (mock_engine (SASL_CONTINUE, [x01; x02], Some "GSSAPI")
                        (fun _ => (SASL_OK, [x03; x04])))
           cyrus_codec alice 0%nat (set_context alice 0%nat, 1%nat)
           (list_byte_of_string "AQI=")).
  reflexivity.
Defined.

(** X8.  [evaluate_challenge] returns a token only when a context was in
    place, the inbound token decoded, and [sasl_client_step], called on
    that context with the decoded bytes, answered a code that is not
    negative; the token is the encode of the bytes the step produced, the
    receiver is as it was and the library is in the state the step left. *)
Theorem step_return_inversion {conn W}
    (E : sasl_engine conn W) (C : sasl_codec)
    (self : authenticator conn) (w : W)
    (s' : st (conn := conn) (W := W)) (rb_payload token : bytes) :
  evaluate_challenge E C rb_payload (self, w) = (Return token, s') ->
  exists c base result out w',
    iv_context self = Some c
    /\ fst (decode_payload E C rb_payload (self, w)) = Return base
    /\ sasl_client_step E c base w = ((result, out), w')
    /\ 0 <= result
    /\ encode_next_payload E C out (self, w') = (Return token, (self, w'))
    /\ s' = (self, w').
Proof.
  destruct (iv_context self) as [c|] eqn:Hctx.
  - rewrite (evaluate_challenge_cases E C _ _ _ _ Hctx).
    destruct (fst (decode_payload E C rb_payload (self, w))) as [base| |];
      [|discriminate ..].
    destruct (sasl_client_step E c base w) as [[result out] w'] eqn:Hstep.
    destruct (c_true (is_sasl_failure result)) eqn:Hres; [discriminate|].
    intros Hrun.
    pose proof (encode_next_payload_state E C out (self, w')) as Hs.
    rewrite Hrun in Hs. cbn [snd] in Hs. subst s'.
    exists c, base, result, out, w'. repeat split; auto.
    now apply is_sasl_failure_false_inv.
  - rewrite (evaluate_challenge_without_context E C _ _ _ Hctx). discriminate.
Qed.

Lemma step_return_inversion_run :
  let E := mock_engine (SASL_CONTINUE, [x01; x02], Some "GSSAPI")
                       (fun _ => (SASL_OK, [x03; x04])) in
  let s := (set_context alice 0%nat, 1%nat) in
  exists c base result out w',
    iv_context (fst s) = Some c
    /\ fst (decode_payload E cyrus_codec (list_byte_of_string "AQI=") s)
       = Return base
    /\ sasl_client_step E c base 1%nat = ((result, out), w')
    /\ 0 <= result
    /\ encode_next_payload E cyrus_codec out (fst s, w')
       = (Return (list_byte_of_string "AwQ="), (fst s, w'))
    /\ s = (fst s, w').
Proof.
  cbv zeta.
  apply (step_return_inversion
           (mock_engine (SASL_CONTINUE, [x01; x02], Some "GSSAPI")
                        (fun _ => (SASL_OK, [x03; x04])))
           cyrus_codec (set_context alice 0%nat) 1%nat
           (set_context alice 0%nat, 1%nat)
           (list_byte_of_string "AQI=") (list_byte_of_string "AwQ=")).
  reflexivity.
Defined.

(** ** The errors each method can raise *)

(** X9.  Called with a String ([rb_payload] is the bytes of one, so that
    [StringValue] has nothing to convert and nothing to raise),
    [evaluate_challenge] raises nothing but the TypeError of a missing
    context and libsasl errors; each libsasl error carries a negative code,
    [sasl_errstring] of that code, and one of three messages, for the
    decode, the step and the encode.  It never raises the mechanism error
    or the overflow error. *)
Theorem step_error_kinds {conn W}
    (E : sasl_engine conn W) (C : sasl_codec)
    (self : authenticator conn) (w : W) (rb_payload : bytes) :
  match fst (evaluate_challenge E C rb_payload (self, w)) with
  | Raise TypeError => iv_context self = None
  | Raise (SaslError msg result errstring) =>
      iv_context self <> None
      /\ result < 0
      /\ errstring = sasl_errstring E result
      /\ (msg = "sasl_decode64 failed to decode the payload"
          \/ msg = "sasl_client_step failed"
          \/ msg = "sasl_encode64 failed to encode the payload")
  | Raise (UnexpectedMechanism _) => False
  | Raise (EncodeOverflow _ _) => False
  | Return _ => True
  | Undefined => True
  end.
Proof.
  destruct (iv_context self) as [c|] eqn:Hctx.
  - rewrite (evaluate_challenge_cases E C _ _ _ _ Hctx).
    rewrite decode_payload_cases.
    destruct (sasl_decode64 C _ (sizeof_payload - 1)) as [[r1 buf1] outlen1].
    destruct (c_true (is_sasl_failure r1)) eqn:Hr1; cbn [fst].
    { apply is_sasl_failure_true_inv in Hr1.
      repeat split; auto. discriminate. }
    destruct outlen1 as [n1|]; cbn [fst]; [|exact I].
    destruct (buffer_take buf1 n1) as [base|]; cbn [fst]; [|exact I].
    destruct (sasl_client_step E c base w) as [[r2 out] w'].
    destruct (c_true (is_sasl_failure r2)) eqn:Hr2; cbn [fst].
    { apply is_sasl_failure_true_inv in Hr2.
      repeat split; auto. discriminate. }
    rewrite encode_next_payload_cases.
    destruct (sasl_encode64 C out (sizeof_payload - 1)) as [[r3 buf3] outlen3].
    destruct (c_true (is_sasl_failure r3)) eqn:Hr3; cbn [fst].
    { apply is_sasl_failure_true_inv in Hr3.
      repeat split; auto. discriminate. }
    destruct outlen3 as [n3|]; cbn [fst]; [|exact I].
    destruct (buffer_take buf3 n3); cbn [fst]; exact I.
  - rewrite (evaluate_challenge_without_context E C _ _ _ Hctx).
    reflexivity.
Qed.

(** X10.  [initialize_challenge] never raises a TypeError.  A libsasl
    error it raises carries [sasl_errstring] of its code and is one of
    four: "sasl_client_new failed" with a code other than SASL_OK,
    "sasl_client_start failed" with a negative code,
    "sasl_client_start did not return SASL_CONTINUE" with a code that is
    not negative and not SASL_CONTINUE, or the encode failure with a
    negative code.  A mechanism error names a mechanism that [strcmp]
    tells from "GSSAPI"; an overflow error reports 4096 bytes or more
    against a capacity of 4096. *)
Theorem initiate_error_kinds {conn W}
    (E : sasl_engine conn W) (C : sasl_codec)
    (s : st (conn := conn) (W := W)) :
  match fst (initialize_challenge E C s) with
  | Raise TypeError => False
  | Raise (SaslError msg result errstring) =>
      errstring = sasl_errstring E result
      /\ ((msg = "sasl_client_new failed" /\ result <> SASL_OK)
          \/ (msg = "sasl_client_start failed" /\ result < 0)
          \/ (msg = "sasl_client_start did not return SASL_CONTINUE"
              /\ 0 <= result /\ result <> SASL_CONTINUE)
          \/ (msg = "sasl_encode64 failed to encode the payload"
              /\ result < 0))
  | Raise (UnexpectedMechanism mech) => strcmp mech "GSSAPI" <> 0
  | Raise (EncodeOverflow written allowed) =>
      allowed = sizeof_payload /\ sizeof_payload <= written
  | Return _ => True
  | Undefined => True
  end.
Proof.
  destruct s as [self w]. rewrite initialize_challenge_cases.
  destruct (sasl_client_new E _ _ _ w) as [[r0 c] w1].
  destruct (Z.eqb_spec r0 SASL_OK) as [->|Hr0]; cbn [negb fst].
  2:{ split; [reflexivity|]. left. split; [reflexivity | exact Hr0]. }
  destruct (sasl_client_start E c "GSSAPI" w1) as [[[r raw] m] w2].
  destruct (c_true (is_sasl_failure r)) eqn:Hr; cbn [fst].
  { apply is_sasl_failure_true_inv in Hr.
    split; [reflexivity|]. right. left. split; [reflexivity | exact Hr]. }
  apply is_sasl_failure_false_inv in Hr.
  destruct m as [mech|]; cbn [fst]; [|exact I].
  destruct (Z.eqb_spec (strcmp mech "GSSAPI") 0) as [Hcmp|Hcmp];
    cbn [negb fst]; [|exact Hcmp].
  destruct (Z.eqb_spec r SASL_CONTINUE) as [->|Hcont]; cbn [negb fst].
  2:{ split; [reflexivity|]. right. right. left.
      repeat split; auto. }
  rewrite encode_first_payload_cases.
  destruct (sasl_encode64 C raw (sizeof_payload - 1)) as [[r3 buf] outlen].
  destruct (c_true (is_sasl_failure r3)) eqn:Hr3; cbn [fst].
  { apply is_sasl_failure_true_inv in Hr3.
    split; [reflexivity|]. right. right. right.
    split; [reflexivity | exact Hr3]. }
  destruct outlen as [n|]; cbn [fst]; [|exact I].
  destruct (Z.leb_spec sizeof_payload n); cbn [fst].
  { split; [reflexivity | assumption]. }
  destruct (buffer_take buf n); cbn [fst]; exact I.
Qed.

(** ** The callback table *)

(** X11.  The table [initialize_challenge] hands to [sasl_client_new]
    registers a callback for SASL_CB_AUTHNAME and for SASL_CB_USER and
    ends with SASL_CB_LIST_END; every callback in it, asked for the
    identifier it is registered under, answers SASL_OK with the receiver's
    [@user_name] (and its length, for a user name whose length fits
    [unsigned]): authentication name and user name are the same. *)
Theorem client_interact_table {conn} (self : authenticator conn) :
  Z.of_nat (String.length (iv_user_name self)) < 2 ^ 32 ->
  map fst (client_interact self)
  = [SASL_CB_AUTHNAME; SASL_CB_USER; SASL_CB_LIST_END]
  /\ forall id entry,
       In (id, entry) (client_interact self) ->
       match entry with
       | Some callback =>
           callback id true
           = (SASL_OK, Some (iv_user_name self),
              Some (Z.of_nat (String.length (iv_user_name self))))
           /\ callback id false = (SASL_OK, Some (iv_user_name self), None)
       | None => id = SASL_CB_LIST_END
       end.
Proof.
  intros Hlen. change (2 ^ 32) with 4294967296 in Hlen.
  split; [reflexivity|].
  intros id entry Hin. cbn [client_interact In] in Hin.
  destruct Hin as [H|[H|[H|[]]]]; injection H as <- <-.
  - unfold sasl_interact. cbn [Z.eqb SASL_CB_AUTHNAME orb fst Pos.eqb].
    rewrite to_unsigned_to_int_small by lia. split; reflexivity.
  - unfold sasl_interact.
    change (SASL_CB_USER =? SASL_CB_AUTHNAME) with false.
    change (SASL_CB_USER =? SASL_CB_USER) with true. cbn [orb fst].
    rewrite to_unsigned_to_int_small by lia. split; reflexivity.
  - reflexivity.
Qed.

Lemma client_interact_table_run :
  map fst (client_interact alice)
  = [SASL_CB_AUTHNAME; SASL_CB_USER; SASL_CB_LIST_END]
  /\ forall id entry,
       In (id, entry) (client_interact alice) ->
       match entry with
       | Some callback =>
           callback id true = (SASL_OK, Some "alice", Some 5)
           /\ callback id false = (SASL_OK, Some "alice", None)
       | None => id = SASL_CB_LIST_END
       end.
Proof.
  apply (client_interact_table alice).
  vm_compute. reflexivity.
Defined.

(** ** Tokens sent are tokens that can be read *)

(** X12.  Over the library's codec, and for engine output shorter than
    2^31 bytes: whenever the encode of [initialize_challenge] or the encode
    of [evaluate_challenge] returns a token, that token is at most 4092
    bytes of base64 and the decode of [evaluate_challenge] turns it back
    into the bytes that were encoded. *)
Theorem emitted_token_decodes {conn W}
    (E : sasl_engine conn W) (raw token : bytes)
    (s : st (conn := conn) (W := W)) :
  Z.of_nat (List.length raw) < 2 ^ 31 ->
  fst (encode_first_payload E cyrus_codec raw s) = Return token
  \/ fst (encode_next_payload E cyrus_codec raw s) = Return token ->
  Z.of_nat (List.length token) <= 4092
  /\ decode_payload E cyrus_codec token s = (Return raw, s).
Proof.
  intros Hlen Hret.
  assert (Hfit : Z.of_nat (List.length raw) <= 3069).
  { destruct (Z.le_gt_cases (Z.of_nat (List.length raw)) 3069) as [|Hbig];
      [assumption|exfalso].
    assert (Hq : 1024 <= (Z.of_nat (List.length raw) + 2) / 3)
      by (apply Z.div_le_lower_bound; lia).
    assert (Hover : sasl_encode64 cyrus_codec raw (sizeof_payload - 1)
                    = (SASL_BUFOVER, [],
                       Some ((Z.of_nat (List.length raw) + 2) / 3 * 4))).
    { apply CyrusBuffers.sasl_encode64_overflows; [assumption|].
      unfold sizeof_payload. lia. }
    rewrite encode_first_payload_cases, encode_next_payload_cases, Hover
      in Hret.
    cbn in Hret. destruct Hret; discriminate. }
  rewrite encode_first_payload_fits, encode_next_payload_fits in Hret
    by assumption.
  cbn [fst] in Hret.
  assert (Htok : token = Cyrus.encode64_loop raw)
    by (destruct Hret as [H|H]; now injection H).
  subst token. split.
  - rewrite CyrusLoop.encode64_loop_length. now apply digits_bound.
  - apply decode_payload_fits. lia.
Qed.

Lemma emitted_token_decodes_run :
  let E := mock_engine (SASL_CONTINUE, [x01; x02], Some "GSSAPI")
                       (fun _ => (SASL_OK, [x03; x04])) in
  Z.of_nat (List.length (list_byte_of_string "AwQ=")) <= 4092
  /\ decode_payload E cyrus_codec (list_byte_of_string "AwQ=") (alice, 0%nat)
     = (Return [x03; x04], (alice, 0%nat)).
Proof.
  cbv zeta.
  apply (emitted_token_decodes
           (mock_engine (SASL_CONTINUE, [x01; x02], Some "GSSAPI")
                        (fun _ => (SASL_OK, [x03; x04])))
           [x03; x04] (list_byte_of_string "AwQ=") (alice, 0%nat)).
  - vm_compute. reflexivity.
  - right. reflexivity.
Defined.

(** ** What no sequence of calls changes *)

(** One call leaves the receiver as it was or stores a context in it. *)
Lemma call_method_receiver {conn W} (E : sasl_engine conn W) (C : sasl_codec)
    (m : method_call) (self : authenticator conn) (w : W) :
  fst (snd (call_method E C m (self, w))) = self
  \/ exists c, fst (snd (call_method E C m (self, w))) = set_context self c.
Proof.
  destruct m as [|rb_payload]; cbn [call_method].
  - rewrite initialize_challenge_cases.
    destruct (sasl_client_new E _ _ _ w) as [[r0 c] w1].
    destruct (negb (r0 =? SASL_OK)); [left; reflexivity|].
    right. exists c.
    destruct (sasl_client_start E c "GSSAPI" w1) as [[[r raw] m] w2].
    destruct (c_true (is_sasl_failure r)); [reflexivity|].
    destruct m as [mech|]; [|reflexivity].
    destruct (negb (strcmp mech "GSSAPI" =? 0)); [reflexivity|].
    destruct (negb (r =? SASL_CONTINUE)); [reflexivity|].
    now rewrite encode_first_payload_state.
  - left.
    destruct (iv_context self) as [c|] eqn:Hctx.
    + rewrite (evaluate_challenge_cases E C _ _ _ _ Hctx).
      destruct (fst (decode_payload E C rb_payload (self, w)));
        try reflexivity.
      destruct (sasl_client_step E c a w) as [[r out] w'].
      destruct (c_true (is_sasl_failure r)); [reflexivity|].
      now rewrite encode_next_payload_state.
    + now rewrite (evaluate_challenge_without_context E C _ _ _ Hctx).
Qed.

(** X13.  No sequence of [initialize_challenge] and [evaluate_challenge]
    calls, whatever they return or raise, changes [@valid], [@user_name],
    [@host_name], [@service_name] or [@canonicalize_host_name]: what
    [a_init] stored is what every later call works with. *)
Theorem identity_fields_invariant {conn W}
    (E : sasl_engine conn W) (C : sasl_codec) (ms : list method_call) :
  forall (s s' : st (conn := conn) (W := W)),
  call_methods E C ms s = Some s' ->
  iv_valid (fst s') = iv_valid (fst s)
  /\ iv_user_name (fst s') = iv_user_name (fst s)
  /\ iv_host_name (fst s') = iv_host_name (fst s)
  /\ iv_service_name (fst s') = iv_service_name (fst s)
  /\ iv_canonicalize_host_name (fst s') = iv_canonicalize_host_name (fst s).
Proof.
  induction ms as [|m ms IH]; intros s s' Hrun; cbn [call_methods] in Hrun.
  - injection Hrun as <-. repeat split.
  - destruct s as [self w].
    pose proof (call_method_receiver E C m self w) as Hrecv.
    destruct (call_method E C m (self, w)) as [o s1].
    cbn [fst snd] in Hrecv.
    assert (Hnext : call_methods E C ms s1 = Some s')
      by (destruct o; [exact Hrun | exact Hrun | discriminate]).
    specialize (IH _ _ Hnext). cbn [fst].
    destruct Hrecv as [Hsame|[c Hset]].
    + rewrite Hsame in IH. exact IH.
    + rewrite Hset in IH. exact IH.
Qed.

Lemma identity_fields_invariant_run :
  let E := mock_engine (SASL_OK, [x01; x02], Some "PLAIN")
                       (fun _ => (SASL_FAIL, [])) in
  let s' := (set_context alice 1%nat, 2%nat) in
  iv_valid (fst s') = true
  /\ iv_user_name (fst s') = "alice"
  /\ iv_host_name (fst s') = "db.example.com"
  /\ iv_service_name (fst s') = "mongodb"
  /\ iv_canonicalize_host_name (fst s') = false.
Proof.
  cbv zeta.
  apply (identity_fields_invariant
           (mock_engine (SASL_OK, [x01; x02], Some "PLAIN")
                        (fun _ => (SASL_FAIL, [])))
           cyrus_codec
           [Step (list_byte_of_string "AQI="); Initiate;
            Step (list_byte_of_string "AQI="); Initiate]
           (alice, 0%nat) (set_context alice 1%nat, 2%nat)).
  vm_compute. reflexivity.
Defined.

(** X14.  Once [@context] holds a connection, no sequence of
    [initialize_challenge] and [evaluate_challenge] calls empties it
    again: no method of the extension resets the slot, not even after a
    raise. *)
Theorem context_never_cleared {conn W}
    (E : sasl_engine conn W) (C : sasl_codec) (ms : list method_call) :
  forall (s s' : st (conn := conn) (W := W)),
  call_methods E C ms s = Some s' ->
  iv_context (fst s) <> None ->
  iv_context (fst s') <> None.
Proof.
  induction ms as [|m ms IH]; intros s s' Hrun Hctx; cbn [call_methods] in Hrun.
  - injection Hrun as <-. exact Hctx.
  - destruct s as [self w].
    pose proof (call_method_receiver E C m self w) as Hrecv.
    destruct (call_method E C m (self, w)) as [o s1].
    cbn [fst snd] in Hrecv, Hctx.
    assert (Hnext : call_methods E C ms s1 = Some s')
      by (destruct o; [exact Hrun | exact Hrun | discriminate]).
    apply (IH _ _ Hnext).
    destruct Hrecv as [Hsame|[c Hset]].
    + now rewrite Hsame.
    + rewrite Hset. discriminate.
Qed.

Lemma context_never_cleared_run :
  iv_context (fst (set_context alice 1%nat, 2%nat)) <> None.
Proof.
  apply (context_never_cleared
           (mock_engine (SASL_OK, [x01; x02], Some "PLAIN")
                        (fun _ => (SASL_FAIL, [])))
           cyrus_codec
           [Step (list_byte_of_string "?"); Initiate;
            Step (list_byte_of_string "AQI=")]
           (set_context alice 0%nat, 1%nat) (set_context alice 1%nat, 2%nat)).
  - vm_compute. reflexivity.
  - discriminate.
Defined.
